(** * onnx2tf: axis conversion, operand resolution, pooling pads and
      approximation builders

    A shallow embedding of [onnx2tf/utils/common_functions.py] and
    [onnx2tf/ops/ReduceMin.py].

    Conventions of the embedding.
    - Python [int], numpy [int64] and tensorflow [int64] values are [Z].
      Tensor dimensions and pooling attributes are far below [2^53], the
      range in which [int64] arithmetic does not wrap and a [float64]
      quotient of two integers has the exact floor and ceiling; the
      [float64] intermediates of the pad arithmetic are therefore exact
      rationals ([Q]).
    - A Python exception is an [Err] outcome of the [result] monad; a
      [for] loop that updates a list is a monadic fold over [range].
    - A Python [dict] is a [gmap] with string keys; the module's global
      name space is such a map too, updated by every [def] statement.
    - A tensorflow tensor is the graph term that builds it; an op that
      refuses the element type of its operand raises when the term is
      built. The values of the arcsine and arccosine builders are
      extended reals, rounding left out. *)

From Stdlib Require Import Ascii String ZArith QArith Qround Reals Lia Lra.
From stdpp Require Import base strings pretty gmap list.

Local Open Scope Z_scope.

(** ** Exceptions and the result monad *)

Inductive exn :=
| TypeError
| ValueError
| IndexError
| KeyError
| NameError
| AssertionError
| RecursionError
| InvalidArgumentError.

Inductive result (A : Type) :=
| Ok (a : A)
| Err (e : exn).
Arguments Ok {A} a.
Arguments Err {A} e.

#[global] Instance result_ret : MRet result := fun _ a => Ok a.
#[global] Instance result_bind : MBind result := fun _ _ f r =>
  match r with
  | Ok a => f a
  | Err e => Err e
  end.
#[global] Instance result_fmap : FMap result := fun _ _ f r =>
  match r with
  | Ok a => Ok (f a)
  | Err e => Err e
  end.

Definition is_ok {A} (r : result A) : bool :=
  match r with Ok _ => true | Err _ => false end.

(** [for x in l: acc = f(acc, x)], leaving at the first exception. *)
Fixpoint foldlM {A B} (f : A → B → result A) (a : A) (l : list B) : result A :=
  match l with
  | [] => Ok a
  | x :: l' => a' ← f a x; foldlM f a' l'
  end.

(** ** Python sequences *)

(** [range(a, b)] *)
Definition py_range (a b : Z) : list Z :=
  (λ k : nat, a + Z.of_nat k) <$> seq 0 (Z.to_nat (b - a)).

(** The position a subscript [k] denotes in a sequence of [len] items:
    negative subscripts count from the end. *)
Definition py_index (len : nat) (k : Z) : option nat :=
  if bool_decide (0 ≤ k < Z.of_nat len) then Some (Z.to_nat k)
  else if bool_decide (- Z.of_nat len ≤ k < 0) then Some (Z.to_nat (Z.of_nat len + k))
  else None.

(** [l[k]] *)
Definition py_getitem {A} (l : list A) (k : Z) : result A :=
  match py_index (length l) k with
  | Some i => match l !! i with Some x => Ok x | None => Err IndexError end
  | None => Err IndexError
  end.

(** [l[k] = x] *)
Definition py_setitem {A} (l : list A) (k : Z) (x : A) : result (list A) :=
  match py_index (length l) k with
  | Some i => Ok (<[i:=x]> l)
  | None => Err IndexError
  end.

(** ** Axis converter *)

(** An attribute value as the graph node carries it. *)
Inductive pyval :=
| PyInt (z : Z)
| PyList (l : list Z).

(** [convert_axis(axis=..., tensor_rank=...)]; the comparison [axis >= 0]
    is defined between integers only. *)
Definition convert_axis (axis : pyval) (tensor_rank : Z) : result Z :=
  match axis with
  | PyList _ => Err TypeError
  | PyInt axis =>
      let converted_axis :=
        if bool_decide (0 ≤ axis) then axis else axis + tensor_rank in
      if bool_decide (2 < tensor_rank) then
        let convertion_table :=
          [0] ++ [tensor_rank - 1] ++ py_range 1 (tensor_rank - 1) in
        py_getitem convertion_table converted_axis
      else Ok converted_axis
  end.

(** ** Constant/variable resolver *)

(** A numpy array: a data buffer seen through a shape and strides, so
    that [transpose] is the change of view numpy makes. *)
Record ndarray := {
  nd_shape : list Z;
  nd_strides : list Z;
  nd_data : list Q
}.

Definition ndim (a : ndarray) : Z := Z.of_nat (length (nd_shape a)).

(** [a.transpose(axes)]: [axes] must have one entry per dimension
    ("axes don't match array"), each inside the rank, none repeated. *)
Definition np_transpose (a : ndarray) (axes : list Z) : result ndarray :=
  let n := length (nd_shape a) in
  if bool_decide (length axes = n) then
    match mapM (py_index n) axes with
    | None => Err ValueError
    | Some perm =>
        if bool_decide (NoDup perm) then
          Ok {| nd_shape := (λ i, nd_shape a !!! i) <$> perm;
                nd_strides := (λ i, nd_strides a !!! i) <$> perm;
                nd_data := nd_data a |}
        else Err ValueError
    end
  else Err ValueError.

(** [gs.Variable]: a named, typed, shaped reference. *)
Record variable := {
  var_name : string;
  var_dtype : string;
  var_shape : list Z
}.

(** A graph operand; only a [gs.Constant] has the attribute [values]. *)
Inductive operand :=
| Constant (name : string) (values : ndarray)
| Var (v : variable).

(** What the resolver hands back: the array, or the operand untouched. *)
Inductive resolved :=
| NumpyArray (values : ndarray)
| GsVariable (v : variable).

Definition get_constant_or_variable (const_or_var : operand) : result resolved :=
  match const_or_var with
  | Constant _ values =>
      let tensor_rank := ndim values in
      if bool_decide (2 < tensor_rank) then
        let convertion_table := [0] ++ py_range 2 (tensor_rank - 2) ++ [1] in
        values ← np_transpose values convertion_table;
        Ok (NumpyArray values)
      else Ok (NumpyArray values)
  | Var v => Ok (GsVariable v)
  end.

(** ** ReduceMin *)

Record node := {
  node_op : string;
  node_name : string;
  node_attrs : gmap string pyval;
  node_inputs : list operand;
  node_outputs : list variable
}.

(** The tensors [make_node] works on: a constant array, a reduction it
    builds, or the tensor another translator stored in the map. *)
Inductive tf_node :=
| TfArray (values : ndarray)
| TfReduceMin (input_tensor : tf_node) (axis : Z) (keepdims : bool) (name : string)
| TfOther (name : string).

(** An entry of [tf_layers_dict]; the key ['tf_node'] is set last. *)
Record layer := {
  layer_optype : string;
  layer_shape : list Z;
  layer_dtype : string;
  layer_tf_node : option tf_node
}.

(** [for idx in axes]: an integer is not iterable. *)
Definition py_iter (v : pyval) : result (list Z) :=
  match v with
  | PyList l => Ok l
  | PyInt _ => Err TypeError
  end.

(** [bool(v)] *)
Definition py_bool (v : pyval) : bool :=
  match v with
  | PyInt z => negb (z =? 0)
  | PyList l => negb (bool_decide (l = []))
  end.

(** Lines 36 to 42 of [make_node]: the attribute, the call on line 38
    and the comprehension on line 42. *)
Definition make_node_axes (attrs : gmap string pyval) (tensor_rank : Z)
    : result (list Z) :=
  let axes := default (PyList [-1]) (attrs !! "axes") in
  axes ← PyInt <$> convert_axis axes tensor_rank;
  idxs ← py_iter axes;
  mapM (λ idx, convert_axis (PyInt idx) tensor_rank) idxs.

Definition make_node (graph_node : node) (tf_layers_dict : gmap string layer)
    : result (gmap string layer) :=
  input0 ← py_getitem (node_inputs graph_node) 0;
  graph_node_input ← get_constant_or_variable input0;
  graph_node_output ← py_getitem (node_outputs graph_node) 0;
  let shape := var_shape graph_node_output in
  let dtype := var_dtype graph_node_output in
  let tensor_rank :=
    match graph_node_input with
    | NumpyArray values => ndim values
    | GsVariable v => Z.of_nat (length (var_shape v))
    end in
  axes ← make_node_axes (node_attrs graph_node) tensor_rank;
  let keepdims := py_bool (default (PyInt 1) (node_attrs graph_node !! "keepdims")) in
  let tf_layers_dict :=
    <[var_name graph_node_output :=
        {| layer_optype := node_op graph_node; layer_shape := shape;
           layer_dtype := dtype; layer_tf_node := None |}]> tf_layers_dict in
  reducemined_tensor ←
    match graph_node_input with
    | GsVariable v =>
        match tf_layers_dict !! var_name v with
        | Some entry =>
            match layer_tf_node entry with Some t => Ok t | None => Err KeyError end
        | None => Err KeyError
        end
    | NumpyArray values => Ok (TfArray values)
    end;
  let reducemined_tensor :=
    foldl (λ t idx,
             TfReduceMin t idx keepdims (node_name graph_node +:+ "_" +:+ pretty idx))
          reducemined_tensor axes in
  match tf_layers_dict !! var_name graph_node_output with
  | Some entry =>
      Ok (<[var_name graph_node_output :=
              {| layer_optype := layer_optype entry; layer_shape := layer_shape entry;
                 layer_dtype := layer_dtype entry;
                 layer_tf_node := Some reducemined_tensor |}]> tf_layers_dict)
  | None => Err KeyError
  end.

(** ** Padding calculator *)

(** [str.lower] on the ASCII letters. *)
Definition lower_ascii (c : ascii) : ascii :=
  let n := N_of_ascii c in
  if ((65 <=? n) && (n <=? 90))%N then ascii_of_N (n + 32) else c.

Fixpoint py_lower (s : string) : string :=
  match s with
  | EmptyString => EmptyString
  | String c s' => String (lower_ascii c) (py_lower s')
  end.

(** [s.startswith(p)] *)
Definition startswith (s p : string) : bool := String.prefix p s.

(** The [padding] argument: an explicit list or a mode string. *)
Inductive padding_t :=
| PadList (l : list Z)
| PadStr (s : string).

(** The namedtuple [pad_ops]. [max_op] is used on integers, [ceil_op]
    and [floor_op] on the [float64] quotients, [cast_int_op] on both. *)
Record pad_ops := {
  max_op : Z → Z → Z;
  ceil_op : Q → Q;
  floor_op : Q → Q;
  cast_int_op : Q → Z
}.

(** Conversion of a float to [int64] drops the fraction. *)
Definition trunc (q : Q) : Z := Z.quot (Qnum q) (Z.pos (Qden q)).

Definition np_maximum : Z → Z → Z := Z.max.
Definition np_ceil (q : Q) : Q := inject_Z (Qceiling q).
Definition np_floor (q : Q) : Q := inject_Z (Qfloor q).
Definition np_astype_int64 (q : Q) : Z := trunc q.

Definition tf_maximum : Z → Z → Z := Z.max.
Definition tf_math_ceil (q : Q) : Q := inject_Z (Qceiling q).
Definition tf_math_floor (q : Q) : Q := inject_Z (Qfloor q).
Definition tf_cast_int64 (q : Q) : Z := trunc q.

Definition pad_numpy_ops : pad_ops :=
  {| max_op := np_maximum; ceil_op := np_ceil; floor_op := np_floor;
     cast_int_op := np_astype_int64 |}.

Definition pad_tf_ops : pad_ops :=
  {| max_op := tf_maximum; ceil_op := tf_math_ceil; floor_op := tf_math_floor;
     cast_int_op := tf_cast_int64 |}.

(** [x / y] on integers gives a float, taken here as the exact
    quotient. A zero divisor is outside the embedding: Python integers
    raise [ZeroDivisionError] on it, numpy and tensorflow values give
    an infinity. So are operands beyond [2^53], and a Python float
    handed to the tensorflow ops, which work on it in [float32]: the
    calculator hands them [int64] tensors. *)
Definition truediv (x y : Z) : Q := (inject_Z x / inject_Z y)%Q.

(** The keyword arguments of a call of the name [calc_pads_same_pooling]:
    a field is [Some] when the call site passes that keyword. *)
Record same_kwargs := {
  kw_in_spatial_shape : option (list Z);
  kw_kernel_shape : option (list Z);
  kw_strides : option (list Z);
  kw_dilations : option (list Z);
  kw_padding : option string;
  kw_is_known_shape : option bool;
  kw_padding_ops : option pad_ops;
  kw_pads_order : option Z
}.

(** The body of the [def calc_pads_same_pooling] on line 357. *)
Definition calc_pads_same_pooling_body_l357
    (in_spatial_shape kernel_shape strides dilations : list Z)
    (padding : string) (padding_ops : pad_ops) (pads_order : Z) : result (list Z) :=
  let spatial_size := Z.of_nat (length kernel_shape) in
  let pads := replicate (Z.to_nat (spatial_size * 2)) 0 in
  foldlM (λ pads i,
    in_size ← py_getitem in_spatial_shape i;
    kernel ← py_getitem kernel_shape i;
    dilation ← py_getitem dilations i;
    let filter_size := (kernel - 1) * dilation + 1 in
    stride ← py_getitem strides i;
    let out_size := ceil_op padding_ops (truediv in_size stride) in
    let out_size := cast_int_op padding_ops out_size in
    let pad_along_axis :=
      max_op padding_ops ((out_size - 1) * stride + filter_size - in_size) 0 in
    let pad_op :=
      if String.eqb (py_lower padding) "same_lower" then ceil_op padding_ops
      else floor_op padding_ops in
    let pad_begin := pad_op (truediv pad_along_axis 2) in
    let pad_begin := cast_int_op padding_ops pad_begin in
    let pad_along_axis := cast_int_op padding_ops (inject_Z pad_along_axis) in
    let pad_end := pad_along_axis - pad_begin in
    pads ← py_setitem pads (i * pads_order) pad_begin;
    py_setitem pads
      (i * pads_order + (if bool_decide (pads_order = 1) then spatial_size else 1))
      pad_end)
    pads (py_range 0 spatial_size).

(** The function object made by line 357: its keyword-only parameters
    are bound first ([padding_ops] and [pads_order] have defaults, no
    parameter is called [is_known_shape]). *)
Definition calc_pads_same_pooling_l357 (kw : same_kwargs) : result (list Z) :=
  match kw_is_known_shape kw, kw_in_spatial_shape kw, kw_kernel_shape kw,
        kw_strides kw, kw_dilations kw, kw_padding kw with
  | None, Some in_spatial_shape, Some kernel_shape,
    Some strides, Some dilations, Some padding =>
      calc_pads_same_pooling_body_l357 in_spatial_shape kernel_shape strides
        dilations padding
        (default pad_numpy_ops (kw_padding_ops kw)) (default 1 (kw_pads_order kw))
  | _, _, _, _, _, _ => Err TypeError
  end.

(** The function object made by line 472: six required keyword-only
    parameters, none called [padding_ops] or [pads_order]. Its body
    calls the global name [calc_pads_same_pooling], here [call]. *)
Definition calc_pads_same_pooling_l472 (call : string → same_kwargs → result (list Z))
    (kw : same_kwargs) : result (list Z) :=
  match kw_padding_ops kw, kw_pads_order kw, kw_kernel_shape kw, kw_strides kw,
        kw_dilations kw, kw_padding kw, kw_in_spatial_shape kw, kw_is_known_shape kw with
  | None, None, Some kernel_shape, Some strides,
    Some dilations, Some padding, Some in_spatial_shape, Some is_known_shape =>
      let pad_ops := if is_known_shape : bool then pad_numpy_ops else pad_tf_ops in
      call "calc_pads_same_pooling"
        {| kw_in_spatial_shape := Some in_spatial_shape;
           kw_kernel_shape := Some kernel_shape;
           kw_strides := Some strides;
           kw_dilations := Some dilations;
           kw_padding := Some padding;
           kw_is_known_shape := None;
           kw_padding_ops := Some pad_ops;
           kw_pads_order := Some 2 |}
  | _, _, _, _, _, _, _, _ => Err TypeError
  end.

(** The two function objects and the module's global names: each [def]
    statement (re)binds its name, in the order of the file. *)
Inductive function :=
| def_l357
| def_l472.

Definition module_globals : gmap string function :=
  <["calc_pads_same_pooling" := def_l472]>
    (<["calc_pads_same_pooling" := def_l357]> ∅).

(** A call of a global name, [depth] frames below the recursion limit. *)
Fixpoint call_global (depth : nat) (name : string) (kw : same_kwargs)
    : result (list Z) :=
  match depth with
  | O => Err RecursionError
  | S depth' =>
      match module_globals !! name with
      | None => Err NameError
      | Some def_l357 => calc_pads_same_pooling_l357 kw
      | Some def_l472 => calc_pads_same_pooling_l472 (call_global depth') kw
      end
  end.

Definition recursion_limit : nat := 1000.

(** What the name [calc_pads_same_pooling] denotes for its callers. *)
Definition calc_pads_same_pooling (kernel_shape strides dilations : list Z)
    (padding : string) (in_spatial_shape : list Z) (is_known_shape : bool)
    : result (list Z) :=
  call_global recursion_limit "calc_pads_same_pooling"
    {| kw_in_spatial_shape := Some in_spatial_shape;
       kw_kernel_shape := Some kernel_shape;
       kw_strides := Some strides;
       kw_dilations := Some dilations;
       kw_padding := Some padding;
       kw_is_known_shape := Some is_known_shape;
       kw_padding_ops := None;
       kw_pads_order := None |}.

Definition calc_pads_explicit_pooling (padding : list Z) (spatial_size : nat)
    : result (list Z) :=
  foldlM (λ pads i,
    b ← py_getitem padding i;
    e ← py_getitem padding (i + Z.of_nat spatial_size);
    Ok (pads ++ [b; e]))
    [] (py_range 0 (Z.of_nat spatial_size)).

Definition calc_pads_ceil_mode_pooling (in_spatial_shape : list Z) (spatial_size : nat)
    (kernel_shape dilations strides : list Z) (is_known_shape : bool)
    : result (list Z) :=
  foldlM (λ pads i,
    dim_size ← py_getitem in_spatial_shape i;
    kernel ← py_getitem kernel_shape i;
    dilation ← py_getitem dilations i;
    let filter_size := (kernel - 1) * dilation + 1 in
    stride ← py_getitem strides i;
    let out_size := truediv (dim_size - filter_size) stride in
    let pad_size :=
      if is_known_shape then np_astype_int64 (np_ceil out_size - np_floor out_size)%Q
      else tf_cast_int64 (tf_math_ceil out_size - tf_math_floor out_size)%Q in
    Ok (pads ++ [0; pad_size * stride]))
    [] (py_range 0 (Z.of_nat spatial_size)).

(** [pads += l] on an [int64] vector: element by element, a one-element
    operand being broadcast. *)
Definition iadd (pads l : list Z) : result (list Z) :=
  if bool_decide (length l = length pads) then Ok (zip_with Z.add pads l)
  else match l with
       | [x] => Ok ((λ p, p + x) <$> pads)
       | _ => Err ValueError
       end.

Definition np_zeros (n : nat) : list Z := replicate n 0.
Definition tf_zeros (n : nat) : list Z := replicate n 0.

(** [padding.lower().startswith("same")] *)
Definition is_same_mode (padding : string) : bool :=
  startswith (py_lower padding) "same".

(** The body of [calc_pads_pooling]; [same_pooling] is the function the
    global name [calc_pads_same_pooling] denotes when line 520 runs. *)
Definition calc_pads_pooling_body
    (same_pooling :
       list Z → list Z → list Z → string → list Z → bool → result (list Z))
    (kernel_shape strides dilations : list Z)
    (padding : padding_t) (is_known_shape : bool) (spatial_size : nat)
    (in_spatial_shape : list Z) (ceil_mode : bool) : result (list Z) :=
  let pads :=
    if is_known_shape then np_zeros (spatial_size * 2)
    else tf_zeros (spatial_size * 2) in
  pads ←
    match padding with
    | PadList l =>
        p ← calc_pads_explicit_pooling l spatial_size;
        iadd pads p
    | PadStr s =>
        if is_same_mode s then
          p ← same_pooling kernel_shape strides dilations s
                 in_spatial_shape is_known_shape;
          iadd pads p
        else Ok pads
    end;
  if ceil_mode &&
     match padding with PadList _ => true | PadStr s => negb (is_same_mode s) end
  then
    new_spatial_shape ←
      mapM (λ i,
        a ← py_getitem in_spatial_shape i;
        b ← py_getitem pads (i * 2);
        e ← py_getitem pads (i * 2 + 1);
        Ok (a + b + e))
        (py_range 0 (Z.of_nat spatial_size));
    p ← calc_pads_ceil_mode_pooling new_spatial_shape spatial_size
           kernel_shape dilations strides is_known_shape;
    iadd pads p
  else Ok pads.

Definition calc_pads_pooling (kernel_shape strides dilations : list Z)
    (padding : padding_t) (is_known_shape : bool) (spatial_size : nat)
    (in_spatial_shape : list Z) (ceil_mode : bool) : result (list Z) :=
  calc_pads_pooling_body calc_pads_same_pooling kernel_shape strides dilations
    padding is_known_shape spatial_size in_spatial_shape ceil_mode.

(** ** Input padder *)

Inductive tf_dtype :=
| tf_float16 | tf_bfloat16 | tf_float32 | tf_float64
| tf_int8 | tf_int16 | tf_int32 | tf_int64
| tf_uint8 | tf_uint16 | tf_uint32 | tf_uint64
| tf_bool | tf_string | tf_complex64 | tf_complex128.

(** [dtype.is_floating] and [dtype.is_integer] *)
Definition is_floating (d : tf_dtype) : bool :=
  match d with
  | tf_float16 | tf_bfloat16 | tf_float32 | tf_float64 => true
  | _ => false
  end.

Definition is_integer (d : tf_dtype) : bool :=
  match d with
  | tf_int8 | tf_int16 | tf_int32 | tf_int64
  | tf_uint8 | tf_uint16 | tf_uint32 | tf_uint64 => true
  | _ => false
  end.

(** A tensor the padder receives or returns. Each dimension of a
    placeholder has its size when the graph runs and a flag telling
    whether that size is known when the graph is built. *)
Inductive tensor :=
| Placeholder (name : string) (dtype : tf_dtype) (dims : list (Z * bool))
| PadOp (input_tensor : tensor) (paddings : list (Z * Z)) (constant_values : Q).

Fixpoint t_dtype (t : tensor) : tf_dtype :=
  match t with
  | Placeholder _ dtype _ => dtype
  | PadOp x _ _ => t_dtype x
  end.

(** The sizes when the graph runs: what [tf.shape] evaluates to. *)
Fixpoint t_dims (t : tensor) : list Z :=
  match t with
  | Placeholder _ _ dims => fst <$> dims
  | PadOp x paddings _ => zip_with (λ d p, d + p.1 + p.2) (t_dims x) paddings
  end.

(** [t.shape]: [None] for a size unknown when the graph is built. *)
Fixpoint static_shape (t : tensor) : list (option Z) :=
  match t with
  | Placeholder _ _ dims => (λ d, if d.2 : bool then Some d.1 else None) <$> dims
  | PadOp x paddings _ =>
      zip_with (λ d p, (λ v, v + p.1 + p.2) <$> d) (static_shape x) paddings
  end.

Definition is_fully_defined (s : list (option Z)) : bool :=
  forallb (λ d, bool_decide (is_Some d)) s.

(** For a shape that is not fully defined the source hands back the
    tensor [tf.shape(input_tensor)]; its entries are taken as the sizes
    the tensor has when the graph runs, which is what the tensorflow
    path computes with. What numpy does with such a tensor is outside
    the embedding. *)
Definition tf_shape (input_tensor : tensor) : list Z :=
  if is_fully_defined (static_shape input_tensor)
  then default 0 <$> static_shape input_tensor
  else t_dims input_tensor.

(** [tf.pad(t, paddings, mode='CONSTANT', constant_values=c)]: one
    non-negative pair per dimension. *)
Definition tf_pad (input_tensor : tensor) (paddings : list (Z * Z)) (constant_values : Q)
    : result tensor :=
  if bool_decide (length paddings = length (t_dims input_tensor)) then
    if forallb (λ p, (0 <=? p.1) && (0 <=? p.2)) paddings
    then Ok (PadOp input_tensor paddings constant_values)
    else Err InvalidArgumentError
  else Err ValueError.

Definition np_count_nonzero (pads : list Z) : nat :=
  length (filter (λ p, p ≠ 0) pads).

(** [l[a:b]] for [0 <= a <= b] *)
Definition py_slice {A} (l : list A) (a b : nat) : list A := take (b - a) (drop a l).

Definition pad_input (input_tensor : tensor) (is_known_shape : bool)
    (kernel_shape : list Z) (ceil_mode : bool) (spatial_size : nat)
    (strides dilations : list Z) (padding : padding_t) (padding_constant : Q)
    : result tensor :=
  if negb ceil_mode &&
     match padding with
     | PadList l => bool_decide (l = replicate (spatial_size * 2) 0)
     | PadStr s => String.eqb s "VALID"
     end
  then Ok input_tensor
  else
    let input_shape := tf_shape input_tensor in
    let in_spatial_shape := py_slice input_shape 1 (length kernel_shape + 1) in
    pads ← calc_pads_pooling kernel_shape strides dilations padding is_known_shape
              spatial_size in_spatial_shape ceil_mode;
    if is_known_shape && bool_decide (np_count_nonzero pads = 0%nat)
    then Ok input_tensor
    else
      let tf_paddings := [(0, 0); (0, 0)] in
      tf_paddings ←
        foldlM (λ tf_paddings i,
          b ← py_getitem pads (i * 2);
          e ← py_getitem pads (i * 2 + 1);
          Ok (tf_paddings ++ [(b, e)]))
          tf_paddings (py_range 0 (Z.of_nat spatial_size));
      tf_pad input_tensor tf_paddings padding_constant.

(** ** alternative_argmax *)

(** The graph [alternative_argmax] builds over its input tensor. Each
    tensorflow call that succeeds is recorded as a node. *)
Inductive argmax_graph :=
| Tensor (t : tensor)
| TfConstant (value : Q) (dtype : tf_dtype) (shape : list Z)
| ReduceMax (x : argmax_graph) (axis : Z) (keepdims : bool)
| Subtract (x y : argmax_graph) (name : option string)
| Minimum (x y : argmax_graph)
| Multiply (x y : argmax_graph)
| Cast (x : argmax_graph) (dtype : tf_dtype)
| Range (start limit delta : Z) (dtype : tf_dtype)
| ExpandDims (x : argmax_graph) (axis : Z).

(** The element types of the real numbers, and the complex ones. *)
Definition is_real (d : tf_dtype) : bool := is_floating d || is_integer d.

Definition is_complex (d : tf_dtype) : bool :=
  match d with
  | tf_complex64 | tf_complex128 => true
  | _ => false
  end.

(** An op refuses an element type that its definition does not list,
    when the node is added to the graph ([TypeError]; tensorflow run
    eagerly raises [InvalidArgumentError] at the same place). Types
    that the definition lists and no kernel serves are not told apart
    here. *)
Definition op_takes (listed : bool) (node : argmax_graph) : result argmax_graph :=
  if listed then Ok node else Err TypeError.

(** [tf.math.reduce_max], [tf.math.minimum] and [tf.range] take real
    numbers only; [tf.subtract] and [tf.math.multiply] take complex
    numbers too; none takes booleans or strings. [dtype] is the
    element type of the operands. *)
Definition graph_reduce_max (x : argmax_graph) (dtype : tf_dtype) (axis : Z)
    (keepdims : bool) : result argmax_graph :=
  op_takes (is_real dtype) (ReduceMax x axis keepdims).

Definition graph_subtract (x y : argmax_graph) (dtype : tf_dtype)
    (name : option string) : result argmax_graph :=
  op_takes (is_real dtype || is_complex dtype) (Subtract x y name).

Definition graph_minimum (x y : argmax_graph) (dtype : tf_dtype)
    : result argmax_graph :=
  op_takes (is_real dtype) (Minimum x y).

Definition graph_multiply (x y : argmax_graph) (dtype : tf_dtype)
    : result argmax_graph :=
  op_takes (is_real dtype || is_complex dtype) (Multiply x y).

(** [tf.range(start, 0, -1, dtype=dtype)] *)
Definition graph_range (start : Z) (dtype : tf_dtype) : result argmax_graph :=
  op_takes (is_real dtype) (Range start 0 (-1) dtype).

(** A Python number: an [int] or a [float]. *)
Inductive py_number :=
| PyNumInt (z : Z)
| PyNumFloat (q : Q).

Definition number_value (v : py_number) : Q :=
  match v with
  | PyNumInt z => inject_Z z
  | PyNumFloat q => q
  end.

(** [tf.constant(value, dtype=dtype, shape=(1,))]: a number is no
    boolean and no string, and a [float] is no integer ([TypeError]).
    Whether an [int] fits the width of [dtype] is not looked at. *)
Definition _nnapi_scalar (value : py_number) (dtype : tf_dtype) : result argmax_graph :=
  if match value with
     | PyNumInt _ => is_real dtype || is_complex dtype
     | PyNumFloat _ => is_floating dtype || is_complex dtype
     end
  then Ok (TfConstant (number_value value) dtype [1])
  else Err TypeError.

Section AlternativeArgmax.

(** The escape sequences of [utils.colors.Color]. *)
Variables Color_RED Color_RESET : string.

Definition error_msg : string :=
  EmptyString +:+ Color_RED +:+ "ERROR:" +:+ Color_RESET +:+ " " +:+
  "Please specify epsilon for unknown input data type. ".

(** What is printed, and the graph or the exception. *)
Definition alternative_argmax (input_tensor : tensor) (axis : Z)
    (output_type : tf_dtype) (name : option string) (keepdims : bool)
    (epsilon : option Q)
    (replace_argmax_to_reducemax_and_indicies_is_int64 : bool)
    (replace_argmax_to_reducemax_and_indicies_is_float32 : bool)
    : list string * result argmax_graph :=
  let shape := static_shape input_tensor in
  let safe_axis := axis in
  let safe_axis :=
    if bool_decide (safe_axis < 0) then Z.of_nat (length shape) + safe_axis
    else safe_axis in
  let zero_if_max : result (option Z * argmax_graph) :=
    reduction_size ← py_getitem shape axis;
    axis_max ← graph_reduce_max (Tensor input_tensor) (t_dtype input_tensor) axis true;
    zero_if_max ←
      graph_subtract axis_max (Tensor input_tensor) (t_dtype input_tensor) None;
    Ok (reduction_size, zero_if_max) in
  match zero_if_max with
  | Err e => ([], Err e)
  | Ok (reduction_size, zero_if_max) =>
      let eps :=
        match epsilon with
        | Some e => if Qeq_bool e 0 then (1 # 1000000)%Q else e
        | None => (1 # 1000000)%Q
        end in
      let branch : list string * result argmax_graph :=
        if is_floating (t_dtype input_tensor) then
          ([],
           eps_scalar ← _nnapi_scalar (PyNumFloat eps) (t_dtype input_tensor);
           zero_if_max_else_eps ←
             graph_minimum eps_scalar zero_if_max (t_dtype input_tensor);
           inv_scalar ← _nnapi_scalar (PyNumFloat (1 / eps)%Q) (t_dtype input_tensor);
           graph_multiply zero_if_max_else_eps inv_scalar (t_dtype input_tensor))
        else if is_integer (t_dtype input_tensor) then
          ([],
           one ← _nnapi_scalar (PyNumInt 1) (t_dtype input_tensor);
           graph_minimum one zero_if_max (t_dtype input_tensor))
        else ([error_msg], Err AssertionError) in
      (branch.1,
       zero_if_max_else_one ← branch.2;
       let zero_if_max_else_one := Cast zero_if_max_else_one output_type in
       one ← _nnapi_scalar (PyNumInt 1) output_type;
       one_if_max_else_zero ← graph_subtract one zero_if_max_else_one output_type None;
       (* tf.range first makes its start a tensor, which None cannot be *)
       reduction_size ←
         match reduction_size with Some n => Ok n | None => Err ValueError end;
       rev_index ← graph_range reduction_size output_type;
       let rev_index :=
         foldl (λ rev_index index, ExpandDims rev_index (index - safe_axis))
               rev_index (py_range (safe_axis + 1) (Z.of_nat (length shape))) in
       rev_index_if_max_else_zero ←
         graph_multiply one_if_max_else_zero rev_index output_type;
       reverse_argmax ←
         graph_reduce_max rev_index_if_max_else_zero output_type axis keepdims;
       size_scalar ←
         _nnapi_scalar (PyNumInt reduction_size) output_type;
       result ← graph_subtract size_scalar reverse_argmax output_type name;
       if replace_argmax_to_reducemax_and_indicies_is_int64
       then Ok (Cast result tf_int64)
       else if replace_argmax_to_reducemax_and_indicies_is_float32
       then Ok (Cast result tf_float32)
       else Ok result)
  end.

End AlternativeArgmax.

(** ** alternative_asin and alternative_acos *)

(** The value of one tensor element: a real number, an infinity or the
    not-a-number of IEEE 754. Rounding is left out; the exceptional
    values are kept, a zero divisor counting as positive zero (the one
    divisor here is an absolute value). *)
Inductive tfval :=
| NaN
| Inf (negative : bool)
| Fin (r : R).

Definition Reqb (a b : R) : bool := if Req_dec_T a b then true else false.
Definition Rltb (a b : R) : bool := if Rlt_dec a b then true else false.

Definition tf_abs (x : tfval) : tfval :=
  match x with
  | NaN => NaN
  | Inf _ => Inf false
  | Fin r => Fin (Rabs r)
  end.

Definition tf_negative (x : tfval) : tfval :=
  match x with
  | NaN => NaN
  | Inf s => Inf (negb s)
  | Fin r => Fin (- r)
  end.

Definition tf_minimum (x y : tfval) : tfval :=
  match x, y with
  | NaN, _ | _, NaN => NaN
  | Inf true, _ | _, Inf true => Inf true
  | Inf false, v | v, Inf false => v
  | Fin a, Fin b => Fin (Rmin a b)
  end.

Definition tf_multiply (x y : tfval) : tfval :=
  match x, y with
  | NaN, _ | _, NaN => NaN
  | Fin a, Fin b => Fin (a * b)
  | Inf s, Inf t => Inf (xorb s t)
  | Inf s, Fin b | Fin b, Inf s =>
      if Reqb b 0 then NaN else Inf (xorb s (Rltb b 0))
  end.

Definition tf_divide (x y : tfval) : tfval :=
  match x, y with
  | NaN, _ | _, NaN => NaN
  | Fin a, Fin b =>
      if Reqb b 0 then (if Reqb a 0 then NaN else Inf (Rltb a 0))
      else Fin (a / b)
  | Fin _, Inf _ => Fin 0
  | Inf s, Fin b => Inf (xorb s (Rltb b 0))
  | Inf _, Inf _ => NaN
  end.

Definition tf_add (x y : tfval) : tfval :=
  match x, y with
  | NaN, _ | _, NaN => NaN
  | Fin a, Fin b => Fin (a + b)
  | Inf s, Fin _ | Fin _, Inf s => Inf s
  | Inf s, Inf t => if Bool.eqb s t then Inf s else NaN
  end.

Definition tf_subtract (x y : tfval) : tfval := tf_add x (tf_negative y).

Definition tf_sqrt (x : tfval) : tfval :=
  match x with
  | NaN => NaN
  | Inf true => NaN
  | Inf false => Inf false
  | Fin r => if Rltb r 0 then NaN else Fin (sqrt r)
  end.

Definition alternative_asin (input_tensor : tfval) : tfval :=
  let x_abs := tf_abs input_tensor in
  let neg :=
    tf_divide (tf_multiply (tf_minimum input_tensor (Fin 0)) (Fin (-1))) x_abs in
  let x := x_abs in
  let y := Fin (-187293 / 10000000) in
  let y := tf_multiply y x in
  let y := tf_add y (Fin (742610 / 10000000)) in
  let y := tf_multiply y x in
  let y := tf_subtract y (Fin (2121144 / 10000000)) in
  let y := tf_multiply y x in
  let y := tf_add y (Fin (15707288 / 10000000)) in
  let y :=
    tf_subtract (tf_multiply (Fin (314159265358979 / 100000000000000)) (Fin (1 / 2)))
                (tf_multiply (tf_sqrt (tf_subtract (Fin 1) x)) y) in
  let pseudo_asin := tf_subtract y (tf_multiply (tf_multiply (Fin 2) neg) y) in
  pseudo_asin.

Definition alternative_acos (input_tensor : tfval) : tfval :=
  let x_abs := tf_abs input_tensor in
  let neg :=
    tf_divide (tf_multiply (tf_minimum input_tensor (Fin 0)) (Fin (-1))) x_abs in
  let x := x_abs in
  let y := Fin (-187293 / 10000000) in
  let y := tf_multiply y x in
  let y := tf_add y (Fin (742610 / 10000000)) in
  let y := tf_multiply y x in
  let y := tf_subtract y (Fin (2121144 / 10000000)) in
  let y := tf_multiply y x in
  let y := tf_add y (Fin (15707288 / 10000000)) in
  let y := tf_multiply y (tf_sqrt (tf_subtract (Fin 1) x)) in
  let y := tf_multiply y (tf_subtract (Fin 1) (tf_multiply (Fin 2) neg)) in
  let pseudo_acos :=
    tf_add (tf_multiply neg (Fin (314159265358979 / 100000000000000))) y in
  pseudo_acos.

(** [v] is a number no further than [tol] from [ref]. *)
Definition within (tol : R) (v : tfval) (ref : R) : Prop :=
  match v with
  | Fin r => (Rabs (r - ref) <= tol)%R
  | _ => False
  end.

(** ** The ceil-mode adjustment in the words of the specification *)

(** [(ceil(out_size) - floor(out_size)) * stride] for
    [out_size = (dim_size - filter_size) / stride]. *)
Definition ceil_extra (dim_size filter_size stride : Z) : Z :=
  (Qceiling (truediv (dim_size - filter_size) stride)
   - Qfloor (truediv (dim_size - filter_size) stride)) * stride.


(** ** The "same" pads of one axis in the words of the specification *)

(** [ceil(a / b)] and [floor(a / b)] on integers, for [b > 0]. *)
Definition ceil_div (a b : Z) : Z := - ((- a) / b).
Definition floor_div (a b : Z) : Z := a / b.

(** [filter_size = (kernel-1)*dilation + 1], [out_size = ceil(in_size/stride)],
    [pad_along_axis = max((out_size-1)*stride + filter_size - in_size, 0)],
    begin by [ceil] ("same_lower") or [floor] of [pad_along_axis / 2],
    [end = pad_along_axis - begin]. *)
Definition same_pads_spec (in_size kernel stride dilation : Z) (lower : bool) : list Z :=
  let filter_size := (kernel - 1) * dilation + 1 in
  let out_size := ceil_div in_size stride in
  let pad_along_axis := Z.max ((out_size - 1) * stride + filter_size - in_size) 0 in
  let pad_begin :=
    if lower then ceil_div pad_along_axis 2 else floor_div pad_along_axis 2 in
  [pad_begin; pad_along_axis - pad_begin].

(** ** Sample inputs *)

(** A ReduceMin node over a rank-4 variable. *)
Definition reduce_min_x : variable :=
  {| var_name := "x"; var_dtype := "float32"; var_shape := [1; 3; 8; 8] |}.

Definition reduce_min_example : node :=
  {| node_op := "ReduceMin";
     node_name := "rm";
     node_attrs := {["axes" := PyList [1; -1]]};
     node_inputs := [Var reduce_min_x];
     node_outputs := [{| var_name := "y"; var_dtype := "float32";
                         var_shape := [1; 1; 8; 1] |}] |}.

Definition reduce_min_layers : gmap string layer :=
  {["x" := {| layer_optype := "Input"; layer_shape := [1; 3; 8; 8];
              layer_dtype := "float32"; layer_tf_node := Some (TfOther "x") |}]}.

(** A rank-4 tensor in the converted layout: batch 1, height 4, width 5,
    3 channels, every size known when the graph is built. *)
Definition nhwc_input : tensor :=
  Placeholder "x" tf_float32 [(1, true); (4, true); (5, true); (3, true)].

(** A batch of 5 by 5 images with 3 channels. *)
Definition nhwc_square : tensor :=
  Placeholder "x" tf_float32 [(1, true); (5, true); (5, true); (3, true)].

(** A tensor of booleans. *)
Definition bool_input : tensor :=
  Placeholder "mask" tf_bool [(1, true); (4, true)].

(** ** Layouts and sizes used in the statements *)

(** [[b0, e0, b1, e1, ...]] read off the list [[b0, b1, ..., e0, e1, ...]]. *)
Definition begin_end_pairs (padding : list Z) (spatial_size : nat) : list Z :=
  concat ((λ i : nat, [padding !!! i; padding !!! (i + spatial_size)%nat])
            <$> seq 0 spatial_size).

(** [(kernel - 1) * dilation + 1] of axis [i]. *)
Definition filter_size_of (kernel_shape dilations : list Z) (i : nat) : Z :=
  (kernel_shape !!! i - 1) * dilations !!! i + 1.

(** The "same" pads of one axis: the total, and the share of the begin
    slot, rounded up for "same_lower" and down otherwise. *)
Definition same_pad_total (in_size kernel stride dilation : Z) : Z :=
  Z.max ((ceil_div in_size stride - 1) * stride
         + ((kernel - 1) * dilation + 1) - in_size) 0.

Definition same_pad_begin (in_size kernel stride dilation : Z) (lower : bool) : Z :=
  if lower then ceil_div (same_pad_total in_size kernel stride dilation) 2
  else floor_div (same_pad_total in_size kernel stride dilation) 2.

(** Where the begin and the end pad of axis [i] go, for [pads_order] 1
    ([[b0, ..., e0, ...]]) and 2 ([[b0, e0, ...]]). *)
Definition begin_slot (pads_order : Z) (i : nat) : nat :=
  if bool_decide (pads_order = 1) then i else (i * 2)%nat.

Definition end_slot (pads_order : Z) (spatial_size i : nat) : nat :=
  if bool_decide (pads_order = 1) then (i + spatial_size)%nat else (i * 2 + 1)%nat.

(** The integers a [float64] holds exactly. For a dividend and a
    divisor among them the quotient rounded to [float64] has the floor
    and the ceiling of the exact quotient, and halving is exact. *)
Definition float64_exact (z : Z) : Prop := - 2 ^ 53 < z < 2 ^ 53.

(** The 64-bit integers of ONNX attributes and dimensions. *)
Definition is_int64 (z : Z) : Prop := - 2 ^ 63 ≤ z < 2 ^ 63.

(** The test of line 563 on [padding]: the all-zero explicit list or the
    literal "VALID". *)
Definition asks_no_padding (padding : padding_t) (spatial_size : nat) : bool :=
  match padding with
  | PadList l => bool_decide (l = replicate (spatial_size * 2) 0)
  | PadStr s => String.eqb s "VALID"
  end.

(** The cubic of lines 293-299 and 326-332, and the constant that
    stands for pi on lines 300 and 335. *)
Definition pseudo_poly (x : R) : R :=
  (((-187293 / 10000000 * x + 742610 / 10000000) * x
    + - (2121144 / 10000000)) * x + 15707288 / 10000000)%R.

Definition pseudo_pi : R := (314159265358979 / 100000000000000)%R.

(** * Properties *)

(** ** Python sequences: basic facts *)

Lemma py_range_length a b : length (py_range a b) = Z.to_nat (b - a).
Proof. unfold py_range. by rewrite length_fmap, length_seq. Qed.

Lemma py_range_lookup a b (k : nat) :
  (k < Z.to_nat (b - a))%nat → py_range a b !! k = Some (a + Z.of_nat k).
Proof.
  intros Hk. unfold py_range.
  rewrite list_lookup_fmap, lookup_seq_lt by done. done.
Qed.

Lemma py_range_seq (n : nat) : py_range 0 (Z.of_nat n) = Z.of_nat <$> seq 0 n.
Proof.
  unfold py_range. replace (Z.to_nat (Z.of_nat n - 0)) with n by lia.
  apply list_fmap_ext. intros _ k _. lia.
Qed.

Lemma py_index_nonneg (len k : nat) :
  (k < len)%nat → py_index len (Z.of_nat k) = Some k.
Proof.
  intros Hk. unfold py_index.
  rewrite bool_decide_eq_true_2 by lia. f_equal. lia.
Qed.

Lemma py_getitem_lookup {A} (l : list A) (k : nat) (x : A) :
  l !! k = Some x → py_getitem l (Z.of_nat k) = Ok x.
Proof.
  intros Hx. unfold py_getitem.
  rewrite py_index_nonneg by (by eapply lookup_lt_Some). by rewrite Hx.
Qed.

Lemma py_getitem_total `{Inhabited A} (l : list A) (k : nat) :
  (k < length l)%nat → py_getitem l (Z.of_nat k) = Ok (l !!! k).
Proof.
  intros Hk. apply py_getitem_lookup. by apply list_lookup_lookup_total_lt.
Qed.

(** ** Axis converter *)

Example convert_axis_4d :
  (λ a, convert_axis (PyInt a) 4) <$> [0; 1; 2; 3; -1] = Ok <$> [0; 3; 1; 2; 2].
Proof. reflexivity. Qed.

Example convert_axis_rank2 :
  (λ a, convert_axis (PyInt a) 2) <$> [0; 1; -1] = Ok <$> [0; 1; 1].
Proof. reflexivity. Qed.

(** Below rank 3 the converter only normalises the axis. *)
Lemma convert_axis_low_rank axis tensor_rank :
  tensor_rank ≤ 2 →
  convert_axis (PyInt axis) tensor_rank =
    Ok (if bool_decide (0 ≤ axis) then axis else axis + tensor_rank).
Proof.
  intros Hr. unfold convert_axis. by rewrite bool_decide_eq_false_2 by lia.
Qed.

(** From rank 3 on, an interior axis moves down by one and axis 1
    becomes the last one. *)
Lemma convert_axis_interior axis tensor_rank :
  2 ≤ axis < tensor_rank →
  convert_axis (PyInt axis) tensor_rank = Ok (axis - 1).
Proof.
  intros Ha. unfold convert_axis.
  rewrite !bool_decide_eq_true_2 by lia.
  replace axis with (Z.of_nat (Z.to_nat axis)) at 1 by lia.
  apply py_getitem_lookup.
  replace (Z.to_nat axis) with (2 + Z.to_nat (axis - 2))%nat by lia.
  change (py_range 1 (tensor_rank - 1) !! Z.to_nat (axis - 2) = Some (axis - 1)).
  rewrite py_range_lookup by lia. f_equal. lia.
Qed.

Lemma convert_axis_channel tensor_rank :
  2 < tensor_rank → convert_axis (PyInt 1) tensor_rank = Ok (tensor_rank - 1).
Proof.
  intros Hr. unfold convert_axis. rewrite !bool_decide_eq_true_2 by lia.
  by apply (py_getitem_lookup _ 1%nat).
Qed.

(** The converter on a valid axis of a tensor of rank 3 or more. *)
Lemma convert_axis_table axis tensor_rank :
  2 < tensor_rank → 0 ≤ axis < tensor_rank →
  convert_axis (PyInt axis) tensor_rank =
    Ok (if bool_decide (axis = 0) then 0
        else if bool_decide (axis = 1) then tensor_rank - 1
        else axis - 1).
Proof.
  intros Hr Ha. repeat case_bool_decide; subst.
  - unfold convert_axis. rewrite !bool_decide_eq_true_2 by lia.
    by apply (py_getitem_lookup _ 0%nat).
  - by apply convert_axis_channel.
  - apply convert_axis_interior. lia.
Qed.

(** On the axes of a tensor of rank 3 or more the converter is
    one-to-one. *)
Lemma convert_axis_injective a b tensor_rank :
  2 < tensor_rank → 0 ≤ a < tensor_rank → 0 ≤ b < tensor_rank →
  convert_axis (PyInt a) tensor_rank = convert_axis (PyInt b) tensor_rank →
  a = b.
Proof.
  intros Hr Ha Hb. rewrite !convert_axis_table by done.
  intros [= Heq]. repeat case_bool_decide; lia.
Qed.

(** C3, as the code has it. For every [tensor_rank > 2],
    [convert_axis(tensor_rank-1, tensor_rank)] is [tensor_rank - 2] (the
    last source axis moves down by one; this is 1 only at rank 3) and
    [convert_axis(0, tensor_rank)] is 0. *)
Theorem convert_axis_last_and_batch tensor_rank :
  2 < tensor_rank →
  convert_axis (PyInt (tensor_rank - 1)) tensor_rank = Ok (tensor_rank - 2) ∧
  convert_axis (PyInt 0) tensor_rank = Ok 0.
Proof.
  intros Hr. split.
  - rewrite convert_axis_interior by lia. f_equal. lia.
  - unfold convert_axis. rewrite !bool_decide_eq_true_2 by lia.
    by apply (py_getitem_lookup _ 0%nat).
Qed.

Lemma convert_axis_last_and_batch_rank4 :
  2 < 4 ∧
  convert_axis (PyInt (4 - 1)) 4 = Ok (4 - 2) ∧ convert_axis (PyInt 0) 4 = Ok 0.
Proof. split; [lia | apply (convert_axis_last_and_batch 4); lia]. Defined.

(** C3 as the spec words it does not hold: at rank 4 the last axis is
    sent to 2, not to 1. *)
Lemma convert_axis_last_is_not_1 :
  ¬ (∀ tensor_rank, 2 < tensor_rank →
       convert_axis (PyInt (tensor_rank - 1)) tensor_rank = Ok 1 ∧
       convert_axis (PyInt 0) tensor_rank = Ok 0).
Proof.
  intros Hclaim. destruct (Hclaim 4) as [Hlast _]; [lia |].
  vm_compute in Hlast. discriminate Hlast.
Qed.

(** ** ReduceMin: the axes of the node *)

(** A comprehension [[f(x) for x in l]] succeeds exactly when [f]
    succeeds on every element, and then lists the results in the order
    of [l]. *)
Lemma mapM_Ok_Forall2 {A B} (f : A → result B) (l : list A) (l' : list B) :
  mapM f l = Ok l' ↔ Forall2 (λ a b, f a = Ok b) l l'.
Proof.
  revert l'. induction l as [|a l IH]; intros l'; cbn.
  - split.
    + intros [= <-]. constructor.
    + by inversion 1.
  - split.
    + destruct (f a) as [b|e] eqn:Hfa; cbn; [|done].
      destruct (mapM f l) as [k|e] eqn:Hk; cbn; [|done].
      intros [= <-]. constructor; [done | by apply IH].
    + inversion 1 as [|? b ? k Hfa Hk]; subst.
      rewrite Hfa. cbn. apply IH in Hk. rewrite Hk. done.
Qed.

(** Line 42 alone is the element-wise conversion. *)
Example comprehension_rank4 :
  mapM (λ idx, convert_axis (PyInt idx) 4) [3; -1; 1; 0] = Ok [2; 2; 3; 0].
Proof. reflexivity. Qed.

(** Line 38 hands the whole list to [convert_axis]. *)
Lemma make_node_axes_of_list attrs tensor_rank :
  attrs !! "axes" = None ∨ (∃ l, attrs !! "axes" = Some (PyList l)) →
  make_node_axes attrs tensor_rank = Err TypeError.
Proof.
  intros [Hnone | [l Hl]]; unfold make_node_axes.
  - by rewrite Hnone.
  - by rewrite Hl.
Qed.

(** Whatever the attribute holds, the two conversions in a row never
    both succeed. *)
Lemma make_node_axes_never_ok attrs tensor_rank :
  is_ok (make_node_axes attrs tensor_rank) = false.
Proof.
  unfold make_node_axes.
  destruct (convert_axis _ tensor_rank); reflexivity.
Qed.

(** C2, on the code. A ReduceMin node whose [axes] attribute is a list
    of integers, or is absent (default [[-1]]), does not get its axes
    converted: [make_node] stops with a [TypeError] in the call of
    [convert_axis] on the list itself, before the comprehension that
    converts the elements one by one. *)
Theorem make_node_axes_list_type_error
    (graph_node : node) (tf_layers_dict : gmap string layer)
    (input0 : operand) (graph_node_input : resolved) :
  node_inputs graph_node !! 0%nat = Some input0 →
  get_constant_or_variable input0 = Ok graph_node_input →
  is_Some (node_outputs graph_node !! 0%nat) →
  node_attrs graph_node !! "axes" = None ∨
    (∃ l, node_attrs graph_node !! "axes" = Some (PyList l)) →
  make_node graph_node tf_layers_dict = Err TypeError.
Proof.
  intros Hin Hres [out Hout] Haxes. unfold make_node.
  apply (py_getitem_lookup _ 0%nat) in Hin, Hout.
  change (Z.of_nat 0) with 0 in Hin, Hout.
  rewrite Hin. cbn. rewrite Hres. cbn. rewrite Hout. cbn.
  by rewrite make_node_axes_of_list.
Qed.

Lemma make_node_axes_list_type_error_example :
  node_inputs reduce_min_example !! 0%nat = Some (Var reduce_min_x) ∧
  get_constant_or_variable (Var reduce_min_x) = Ok (GsVariable reduce_min_x) ∧
  is_Some (node_outputs reduce_min_example !! 0%nat) ∧
  (∃ l, node_attrs reduce_min_example !! "axes" = Some (PyList l)) ∧
  make_node reduce_min_example reduce_min_layers = Err TypeError.
Proof.
  assert (H1 : node_inputs reduce_min_example !! 0%nat = Some (Var reduce_min_x))
    by reflexivity.
  assert (H2 : get_constant_or_variable (Var reduce_min_x)
               = Ok (GsVariable reduce_min_x)) by reflexivity.
  assert (H3 : is_Some (node_outputs reduce_min_example !! 0%nat))
    by (eexists; reflexivity).
  assert (H4 : ∃ l, node_attrs reduce_min_example !! "axes" = Some (PyList l))
    by (eexists; reflexivity).
  refine (conj H1 (conj H2 (conj H3 (conj H4 _)))).
  exact (make_node_axes_list_type_error reduce_min_example reduce_min_layers
           _ _ H1 H2 H3 (or_intror H4)).
Defined.

(** ** Constant/variable resolver *)

Lemma convertion_table_length tensor_rank :
  length ([0] ++ py_range 2 (tensor_rank - 2) ++ [1]) =
    (2 + Z.to_nat (tensor_rank - 4))%nat.
Proof.
  rewrite !length_app, py_range_length. cbn.
  replace (tensor_rank - 2 - 2) with (tensor_rank - 4) by lia. lia.
Qed.

Example transpose_3d :
  np_transpose {| nd_shape := [2; 3; 4]; nd_strides := [12; 4; 1]; nd_data := [] |}
               [0; 2; 1]
  = Ok {| nd_shape := [2; 4; 3]; nd_strides := [12; 1; 4]; nd_data := [] |}.
Proof. reflexivity. Qed.

(** Rank 2 and below: the values come back as they are. *)
Lemma get_constant_low_rank name values :
  ndim values ≤ 2 →
  get_constant_or_variable (Constant name values) = Ok (NumpyArray values).
Proof.
  intros Hr. unfold get_constant_or_variable.
  by rewrite bool_decide_eq_false_2 by lia.
Qed.

Lemma get_variable v : get_constant_or_variable (Var v) = Ok (GsVariable v).
Proof. reflexivity. Qed.

(** C4, on the code. For a constant of rank above 2 the table
    [[0] + [2 .. rank-3] + [1]] has [rank - 2] entries (two at rank 3),
    never [rank]: [transpose] refuses it and the resolver raises
    [ValueError] instead of returning permuted values. *)
Theorem get_constant_high_rank_fails name values :
  2 < ndim values →
  get_constant_or_variable (Constant name values) = Err ValueError.
Proof.
  intros Hr. unfold get_constant_or_variable.
  rewrite bool_decide_eq_true_2 by done.
  unfold np_transpose.
  rewrite bool_decide_eq_false_2; [done |].
  rewrite convertion_table_length. unfold ndim in *. lia.
Qed.

Lemma get_constant_high_rank_fails_3d :
  2 < ndim {| nd_shape := [2; 3; 4]; nd_strides := [12; 4; 1]; nd_data := [] |} ∧
  get_constant_or_variable
    (Constant "w" {| nd_shape := [2; 3; 4]; nd_strides := [12; 4; 1]; nd_data := [] |})
  = Err ValueError.
Proof.
  split; [reflexivity | apply get_constant_high_rank_fails; reflexivity].
Defined.

(** ** Loops over [range] *)


Lemma foldlM_ok_app {B} (f : list B → Z → result (list B)) (h : nat → list B)
    (l : list nat) (acc : list B) :
  (∀ acc k, k ∈ l → f acc (Z.of_nat k) = Ok (acc ++ h k)) →
  foldlM f acc (Z.of_nat <$> l) = Ok (acc ++ concat (h <$> l)).
Proof.
  revert acc. induction l as [|k l IH]; intros acc Hf; cbn.
  - by rewrite app_nil_r.
  - rewrite Hf by left. cbn.
    rewrite IH by (intros; apply Hf; by right).
    by rewrite <- app_assoc.
Qed.

Lemma iadd_same_length (pads l : list Z) :
  length l = length pads → iadd pads l = Ok (zip_with Z.add pads l).
Proof. intros Hl. unfold iadd. by rewrite bool_decide_eq_true_2. Qed.

Lemma iadd_length (pads l r : list Z) :
  iadd pads l = Ok r → length r = length pads.
Proof.
  unfold iadd. case_bool_decide as Hl.
  - intros [= <-]. rewrite length_zip_with. lia.
  - destruct l as [|x [|??]]; intros [= <-]. by rewrite length_fmap.
Qed.

Lemma trunc_sub_inject (a b : Z) : trunc (inject_Z a - inject_Z b) = a - b.
Proof.
  unfold trunc. cbn. rewrite Z.quot_1_r. lia.
Qed.

(** ** Padding calculator *)

(** The global name denotes the function of line 472. *)
Lemma calc_pads_same_pooling_binding :
  module_globals !! "calc_pads_same_pooling" = Some def_l472.
Proof. unfold module_globals. apply lookup_insert_eq. Qed.

(** The body of line 357 on the example of the specification: one axis
    of size 10, kernel 3, stride 2, dilation 1. *)
Example calc_pads_same_upper :
  calc_pads_same_pooling_body_l357 [10] [3] [2] [1] "same_upper" pad_numpy_ops 2
  = Ok [0; 1].
Proof. reflexivity. Qed.

Example calc_pads_same_lower :
  calc_pads_same_pooling_body_l357 [10] [3] [2] [1] "same_lower" pad_numpy_ops 2
  = Ok [1; 0].
Proof. reflexivity. Qed.

(** The two operation tables compute the same pads. *)
Lemma calc_pads_same_backends in_spatial_shape kernel_shape strides dilations
    padding pads_order :
  calc_pads_same_pooling_body_l357 in_spatial_shape kernel_shape strides
    dilations padding pad_numpy_ops pads_order =
  calc_pads_same_pooling_body_l357 in_spatial_shape kernel_shape strides
    dilations padding pad_tf_ops pads_order.
Proof. reflexivity. Qed.

(** A call of the function of line 472 calls the same function again,
    with two keywords it does not have. *)
Lemma call_global_same_type_error depth kernel_shape strides dilations padding
    in_spatial_shape is_known_shape :
  call_global (S (S depth)) "calc_pads_same_pooling"
    {| kw_in_spatial_shape := Some in_spatial_shape;
       kw_kernel_shape := Some kernel_shape;
       kw_strides := Some strides;
       kw_dilations := Some dilations;
       kw_padding := Some padding;
       kw_is_known_shape := Some is_known_shape;
       kw_padding_ops := None;
       kw_pads_order := None |} = Err TypeError.
Proof.
  cbn [call_global]. rewrite calc_pads_same_pooling_binding. reflexivity.
Qed.

Lemma calc_pads_same_pooling_type_error kernel_shape strides dilations padding
    in_spatial_shape is_known_shape :
  calc_pads_same_pooling kernel_shape strides dilations padding in_spatial_shape
    is_known_shape = Err TypeError.
Proof. apply call_global_same_type_error. Qed.

(** C1, on the code. For kernel 3, stride 2, dilation 1 and input size
    10 the calculator returns no pads under "same_upper" or
    "same_lower": the second [def calc_pads_same_pooling] replaced the
    first, calls itself with [padding_ops] and [pads_order], and raises
    [TypeError]. The expected pads [[0, 1]] and [[1, 0]] are what the
    body of the first definition computes ([calc_pads_same_upper],
    [calc_pads_same_lower]). *)
Theorem calc_pads_pooling_same_example_fails :
  calc_pads_pooling [3] [2] [1] (PadStr "same_upper") true 1 [10] false
    = Err TypeError ∧
  calc_pads_pooling [3] [2] [1] (PadStr "same_lower") true 1 [10] false
    = Err TypeError.
Proof. split; vm_compute; reflexivity. Qed.

(** Under a "same" mode the calculator fails whatever the other
    arguments are. *)
Lemma calc_pads_pooling_same_fails kernel_shape strides dilations padding
    is_known_shape spatial_size in_spatial_shape ceil_mode :
  is_same_mode padding = true →
  calc_pads_pooling kernel_shape strides dilations (PadStr padding) is_known_shape
    spatial_size in_spatial_shape ceil_mode = Err TypeError.
Proof.
  intros Hsame. unfold calc_pads_pooling, calc_pads_pooling_body.
  rewrite Hsame, calc_pads_same_pooling_type_error. reflexivity.
Qed.

Lemma calc_pads_ceil_mode_pooling_backends in_spatial_shape spatial_size
    kernel_shape dilations strides :
  calc_pads_ceil_mode_pooling in_spatial_shape spatial_size kernel_shape dilations
    strides true =
  calc_pads_ceil_mode_pooling in_spatial_shape spatial_size kernel_shape dilations
    strides false.
Proof. reflexivity. Qed.

(** The ceil-mode pads in closed form. *)
Lemma calc_pads_ceil_mode_pooling_ok in_spatial_shape spatial_size kernel_shape
    dilations strides is_known_shape :
  (spatial_size ≤ length in_spatial_shape)%nat →
  (spatial_size ≤ length kernel_shape)%nat →
  (spatial_size ≤ length dilations)%nat →
  (spatial_size ≤ length strides)%nat →
  calc_pads_ceil_mode_pooling in_spatial_shape spatial_size kernel_shape dilations
    strides is_known_shape =
  Ok (concat ((λ i : nat,
        [0; ceil_extra (in_spatial_shape !!! i)
              ((kernel_shape !!! i - 1) * dilations !!! i + 1)
              (strides !!! i)]) <$> seq 0 spatial_size)).
Proof.
  intros Hin Hk Hd Hs. unfold calc_pads_ceil_mode_pooling.
  rewrite py_range_seq.
  rewrite (foldlM_ok_app _ (λ i : nat,
    [0; ceil_extra (in_spatial_shape !!! i)
          ((kernel_shape !!! i - 1) * dilations !!! i + 1) (strides !!! i)])).
  - done.
  - intros acc k [_ Hk']%elem_of_seq. cbn in Hk'.
    rewrite !py_getitem_total by lia. cbn.
    do 3 f_equal. unfold ceil_extra.
    destruct is_known_shape;
      unfold np_astype_int64, np_ceil, np_floor, tf_cast_int64, tf_math_ceil,
        tf_math_floor;
      by rewrite trunc_sub_inject.
Qed.

Lemma length_concat_pairs {A} (a b : nat → A) (l : list nat) :
  length (concat ((λ i, [a i; b i]) <$> l)) = (length l * 2)%nat.
Proof. induction l as [|k l IH]; cbn; [done | by rewrite IH]. Qed.

(** Without ceil mode the calculator returns the explicit (or zero)
    pads, one pair per axis. *)
Lemma calc_pads_pooling_base_length kernel_shape strides dilations padding
    is_known_shape spatial_size in_spatial_shape base :
  calc_pads_pooling kernel_shape strides dilations padding is_known_shape
    spatial_size in_spatial_shape false = Ok base →
  length base = (spatial_size * 2)%nat.
Proof.
  unfold calc_pads_pooling, calc_pads_pooling_body. cbn [andb].
  assert (Hz : length (if is_known_shape then np_zeros (spatial_size * 2)
                       else tf_zeros (spatial_size * 2)) = (spatial_size * 2)%nat).
  { destruct is_known_shape; apply length_replicate. }
  destruct padding as [l | s].
  - destruct (calc_pads_explicit_pooling l spatial_size) as [p|e]; cbn; [|done].
    destruct (iadd _ p) as [r|e] eqn:Hadd; cbn; [|done].
    intros [= <-]. apply iadd_length in Hadd. by rewrite Hadd.
  - destruct (is_same_mode s).
    + by rewrite calc_pads_same_pooling_type_error.
    + cbn. by intros [= <-].
Qed.

Lemma bind_Ok {A B} (a : A) (f : A → result B) : Ok a ≫= f = f a.
Proof. reflexivity. Qed.

Lemma bind_Err {A B} (e : exn) (f : A → result B) : Err e ≫= f = Err e.
Proof. reflexivity. Qed.




(** Outside the failing "same" modes the two backends agree: for an
    operator with at least one spatial axis and positive strides the
    calculator has the same outcome with [is_known_shape] set (numpy
    operations) and unset (tensorflow operations). *)
Lemma calc_pads_pooling_backends kernel_shape strides dilations padding
    spatial_size in_spatial_shape ceil_mode :
  (0 < spatial_size)%nat →
  Forall (λ s, 0 < s) strides →
  calc_pads_pooling kernel_shape strides dilations padding true spatial_size
    in_spatial_shape ceil_mode =
  calc_pads_pooling kernel_shape strides dilations padding false spatial_size
    in_spatial_shape ceil_mode.
Proof.
  intros _ _. unfold calc_pads_pooling, calc_pads_pooling_body.
  destruct padding as [l | s].
  - reflexivity.
  - destruct (is_same_mode s).
    + by rewrite !calc_pads_same_pooling_type_error.
    + reflexivity.
Qed.

Example calc_pads_pooling_backends_explicit :
  calc_pads_pooling [3; 3] [2; 2] [1; 1] (PadList [1; 0; 2; 1]) true 2 [10; 7] true
    = Ok [1; 2; 0; 3] ∧
  calc_pads_pooling [3; 3] [2; 2] [1; 1] (PadList [1; 0; 2; 1]) false 2 [10; 7] true
    = Ok [1; 2; 0; 3].
Proof. split; reflexivity. Qed.

(** Had the name still denoted the function of line 357 when the
    function of line 472 calls it, the pads of the specification would
    come out. *)
Example calc_pads_same_pooling_intended :
  calc_pads_same_pooling_l472 (λ _, calc_pads_same_pooling_l357)
    {| kw_in_spatial_shape := Some [10];
       kw_kernel_shape := Some [3];
       kw_strides := Some [2];
       kw_dilations := Some [1];
       kw_padding := Some "same_upper";
       kw_is_known_shape := Some true;
       kw_padding_ops := None;
       kw_pads_order := None |} = Ok [0; 1].
Proof. reflexivity. Qed.

(** C5, on the code. For two axes of sizes 10 and 7, kernel 3, stride 2
    and "SAME_UPPER" the two operation tables compute the same pads
    [[0, 1, 1, 1]], but neither backend of the calculator produces
    them: with [is_known_shape] set as with it unset the call of
    [calc_pads_same_pooling] raises [TypeError] before a table is
    used. *)
Theorem calc_pads_pooling_same_backends_fail :
  calc_pads_same_pooling_body_l357 [10; 7] [3; 3] [2; 2] [1; 1] "SAME_UPPER"
    pad_numpy_ops 2 = Ok [0; 1; 1; 1] ∧
  calc_pads_same_pooling_body_l357 [10; 7] [3; 3] [2; 2] [1; 1] "SAME_UPPER"
    pad_tf_ops 2 = Ok [0; 1; 1; 1] ∧
  calc_pads_pooling [3; 3] [2; 2] [1; 1] (PadStr "SAME_UPPER") true 2 [10; 7] false
    = Err TypeError ∧
  calc_pads_pooling [3; 3] [2; 2] [1; 1] (PadStr "SAME_UPPER") false 2 [10; 7] false
    = Err TypeError.
Proof. repeat split; vm_compute; reflexivity. Qed.

(** ** The pad arithmetic on integers *)

Lemma Qfloor_truediv a b : 0 < b → Qfloor (truediv a b) = floor_div a b.
Proof.
  intros Hb. unfold truediv, floor_div, Qdiv, Qinv, Qfloor.
  destruct b as [|b|b]; try lia. cbn.
  by rewrite Z.mul_1_r.
Qed.

Lemma Qceiling_truediv a b : 0 < b → Qceiling (truediv a b) = ceil_div a b.
Proof.
  intros Hb. unfold Qceiling, ceil_div.
  replace (- truediv a b)%Q with (truediv (- a) b).
  - by rewrite Qfloor_truediv.
  - unfold truediv, Qdiv, Qinv. destruct b as [|b|b]; try lia. cbn.
    unfold Qopp, Qmult, inject_Z. cbn. f_equal. lia.
Qed.

Lemma trunc_inject z : trunc (inject_Z z) = z.
Proof. unfold trunc. cbn. apply Z.quot_1_r. Qed.

(** The ceil-mode extra of an axis is nothing when the stride divides
    [dim_size - filter_size], and one stride otherwise. *)
Lemma ceil_extra_cases dim_size filter_size stride :
  0 < stride →
  ceil_extra dim_size filter_size stride =
    if bool_decide ((dim_size - filter_size) `mod` stride = 0) then 0 else stride.
Proof.
  intros Hs. unfold ceil_extra.
  rewrite Qceiling_truediv, Qfloor_truediv by done.
  unfold ceil_div, floor_div.
  set (a := dim_size - filter_size).
  case_bool_decide as Hmod.
  - apply Z.mod_divide in Hmod; [|lia]. destruct Hmod as [c ->].
    rewrite <- Z.mul_opp_l, !Z.div_mul by lia. lia.
  - rewrite Z.div_opp_l_nz by lia. lia.
Qed.

Lemma py_getitem_0 {A} (x : A) (l : list A) : py_getitem (x :: l) 0 = Ok x.
Proof. reflexivity. Qed.

(** On one axis the body of line 357 computes the pads of the
    specification, with either operation table. *)
Lemma calc_pads_same_pooling_body_one_axis in_size kernel stride dilation padding ops :
  0 < stride →
  ops = pad_numpy_ops ∨ ops = pad_tf_ops →
  calc_pads_same_pooling_body_l357 [in_size] [kernel] [stride] [dilation] padding
    ops 2 =
  Ok (same_pads_spec in_size kernel stride dilation
        (String.eqb (py_lower padding) "same_lower")).
Proof.
  intros Hs Hops. unfold calc_pads_same_pooling_body_l357, same_pads_spec.
  assert (Hceil : ceil_op ops = np_ceil) by (by destruct Hops as [-> | ->]).
  assert (Hfloor : floor_op ops = np_floor) by (by destruct Hops as [-> | ->]).
  assert (Hcast : cast_int_op ops = trunc) by (by destruct Hops as [-> | ->]).
  assert (Hmax : max_op ops = Z.max) by (by destruct Hops as [-> | ->]).
  rewrite Hceil, Hfloor, Hcast, Hmax.
  change (py_range 0 (Z.of_nat (length [kernel]))) with [0].
  change (replicate _ 0) with [0; 0].
  cbn [foldlM].
  rewrite !py_getitem_0, !bind_Ok.
  unfold np_ceil, np_floor.
  rewrite !trunc_inject, Qceiling_truediv by done.
  destruct (String.eqb (py_lower padding) "same_lower").
  - rewrite trunc_inject, Qceiling_truediv by lia. reflexivity.
  - rewrite trunc_inject, Qfloor_truediv by lia. reflexivity.
Qed.

Example same_pads_spec_upper : same_pads_spec 10 3 2 1 false = [0; 1].
Proof. reflexivity. Qed.

Example same_pads_spec_lower : same_pads_spec 10 3 2 1 true = [1; 0].
Proof. reflexivity. Qed.

(** ** Input padder *)

(** C6. With [ceil_mode] unset, the all-zero explicit list of length
    [2 * spatial_size] and the string "VALID" make [pad_input] return
    its input tensor itself; and when the shape is known and the
    calculator returns only zero pads, [pad_input] returns the input
    tensor itself as well. No pad operation is built in either case. *)
Theorem pad_input_noop :
  (∀ input_tensor is_known_shape kernel_shape spatial_size strides dilations
     padding padding_constant,
     padding = PadList (replicate (spatial_size * 2) 0) ∨ padding = PadStr "VALID" →
     pad_input input_tensor is_known_shape kernel_shape false spatial_size strides
       dilations padding padding_constant = Ok input_tensor)
  ∧
  (∀ input_tensor kernel_shape ceil_mode spatial_size strides dilations padding
     padding_constant pads,
     calc_pads_pooling kernel_shape strides dilations padding true spatial_size
       (py_slice (tf_shape input_tensor) 1 (length kernel_shape + 1)) ceil_mode
       = Ok pads →
     np_count_nonzero pads = 0%nat →
     pad_input input_tensor true kernel_shape ceil_mode spatial_size strides
       dilations padding padding_constant = Ok input_tensor).
Proof.
  split.
  - intros t known ks n st dl padding c [-> | ->]; unfold pad_input; cbn [negb andb].
    + by rewrite bool_decide_eq_true_2.
    + reflexivity.
  - intros t ks cm n st dl padding c pads Hpads Hzero. unfold pad_input.
    destruct (negb cm && _); [done |].
    rewrite Hpads, bind_Ok. cbn [andb].
    by rewrite bool_decide_eq_true_2.
Qed.

Lemma pad_input_noop_example :
  (PadStr "VALID" = PadStr "VALID" ∧
   pad_input nhwc_square false [3; 3] false 2 [2; 2] [1; 1] (PadStr "VALID") 0
     = Ok nhwc_square) ∧
  (calc_pads_pooling [3; 3] [2; 2] [1; 1] (PadStr "VALID") true 2
     (py_slice (tf_shape nhwc_square) 1 (length [3; 3] + 1)) true = Ok [0; 0; 0; 0] ∧
   np_count_nonzero [0; 0; 0; 0] = 0%nat ∧
   pad_input nhwc_square true [3; 3] true 2 [2; 2] [1; 1] (PadStr "VALID") 0
     = Ok nhwc_square).
Proof.
  assert (Hpads : calc_pads_pooling [3; 3] [2; 2] [1; 1] (PadStr "VALID") true 2
            (py_slice (tf_shape nhwc_square) 1 (length [3; 3] + 1)) true
          = Ok [0; 0; 0; 0]) by reflexivity.
  assert (Hzero : np_count_nonzero [0; 0; 0; 0] = 0%nat) by reflexivity.
  refine (conj (conj eq_refl _) (conj Hpads (conj Hzero _))).
  - exact (proj1 pad_input_noop nhwc_square false [3; 3] 2%nat [2; 2] [1; 1]
             (PadStr "VALID") 0%Q (or_intror eq_refl)).
  - exact (proj2 pad_input_noop nhwc_square [3; 3] true 2%nat [2; 2] [1; 1]
             (PadStr "VALID") 0%Q [0; 0; 0; 0] Hpads Hzero).
Defined.

(** The pad specification starts with two [[0, 0]] rows whatever the
    pads are. *)
Lemma tf_paddings_prefix (pads : list Z) (l : list Z) (acc r : list (Z * Z)) :
  foldlM (λ tf_paddings i,
    b ← py_getitem pads (i * 2);
    e ← py_getitem pads (i * 2 + 1);
    Ok (tf_paddings ++ [(b, e)])) acc l = Ok r →
  ∃ rest, r = acc ++ rest ∧ length rest = length l.
Proof.
  revert acc. induction l as [|i l IH]; intros acc; cbn.
  - intros [= <-]. exists []. by rewrite app_nil_r.
  - destruct (py_getitem pads (i * 2)) as [b|?]; [|done].
    destruct (py_getitem pads (i * 2 + 1)) as [e|?]; [|done].
    rewrite !bind_Ok. intros (rest & -> & Hlen)%IH.
    exists ((b, e) :: rest). rewrite <- app_assoc. cbn. by rewrite Hlen.
Qed.

Lemma PadOp_neq_input t paddings c : PadOp t paddings c ≠ t.
Proof.
  revert paddings c. induction t as [| t IH p' c']; intros paddings c; [done |].
  intros [= Ht _ _]. by eapply IH.
Qed.

(** Every pad operation the padder builds over its input leaves
    dimensions 0 and 1 alone and pads from dimension 2 on. *)
Lemma pad_input_pads_from_dimension_2 input_tensor is_known_shape kernel_shape
    ceil_mode spatial_size strides dilations padding padding_constant paddings c :
  pad_input input_tensor is_known_shape kernel_shape ceil_mode spatial_size strides
    dilations padding padding_constant = Ok (PadOp input_tensor paddings c) →
  ∃ rest, paddings = [(0, 0); (0, 0)] ++ rest ∧ length rest = spatial_size.
Proof.
  unfold pad_input.
  destruct (negb ceil_mode && _).
  { intros [= H]. symmetry in H. by apply PadOp_neq_input in H. }
  destruct (calc_pads_pooling _ _ _ _ _ _ _ _) as [pads|?]; [|done].
  rewrite bind_Ok.
  destruct (is_known_shape && _).
  { intros [= H]. symmetry in H. by apply PadOp_neq_input in H. }
  destruct (foldlM _ _ _) as [tf_paddings|?] eqn:Hfold; [|done].
  rewrite bind_Ok. unfold tf_pad.
  repeat case_match; try done. intros [= <- _].
  apply tf_paddings_prefix in Hfold as (rest & -> & Hlen).
  exists rest. split; [done |].
  by rewrite Hlen, py_range_length, Z.sub_0_r, Nat2Z.id.
Qed.

(** C9, on the code. On a batch of 4 by 5 images with 3 channels and
    the explicit pads (1, 2) and (3, 4), the spatial sizes are read
    from dimensions 1 and 2 (4 and 5), yet the pads land on dimensions
    2 and 3: dimension 1 keeps its size 4 and the channel dimension
    grows from 3 to 10. *)
Theorem pad_input_pads_wrong_dimensions :
  py_slice (tf_shape nhwc_input) 1 (length [2; 2] + 1) = [4; 5] ∧
  pad_input nhwc_input true [2; 2] false 2 [1; 1] [1; 1] (PadList [1; 3; 2; 4]) 0
    = Ok (PadOp nhwc_input [(0, 0); (0, 0); (1, 2); (3, 4)] 0) ∧
  t_dims nhwc_input = [1; 4; 5; 3] ∧
  t_dims (PadOp nhwc_input [(0, 0); (0, 0); (1, 2); (3, 4)] 0) = [1; 4; 8; 10].
Proof. repeat split; vm_compute; reflexivity. Qed.

(** ** alternative_argmax *)

(** An element type that is neither floating nor integer is refused by
    the first op. *)
Lemma graph_reduce_max_refuses x dtype axis keepdims :
  is_floating dtype = false → is_integer dtype = false →
  graph_reduce_max x dtype axis keepdims = Err TypeError.
Proof. intros Hf Hi. unfold graph_reduce_max, is_real. by rewrite Hf, Hi. Qed.

Lemma py_getitem_not_assertion {A} (l : list A) (k : Z) e :
  py_getitem l k = Err e → e ≠ AssertionError.
Proof. unfold py_getitem. repeat case_match; by intros [= <-]. Qed.

(** The diagnostic of lines 204 to 209 is never printed and its
    assertion never fails, whatever the arguments are. *)
Lemma alternative_argmax_never_asserts Color_RED Color_RESET input_tensor axis
    output_type name keepdims epsilon to_int64 to_float32 :
  (alternative_argmax Color_RED Color_RESET input_tensor axis output_type name
     keepdims epsilon to_int64 to_float32).1 = [] ∧
  (alternative_argmax Color_RED Color_RESET input_tensor axis output_type name
     keepdims epsilon to_int64 to_float32).2 ≠ Err AssertionError.
Proof.
  unfold alternative_argmax.
  destruct (py_getitem (static_shape input_tensor) axis) as [r|e] eqn:Hget.
  2:{ cbn. split; [done |]. intros [= ->]. by apply py_getitem_not_assertion in Hget. }
  rewrite bind_Ok.
  unfold graph_reduce_max, graph_subtract, graph_minimum, graph_multiply,
    graph_range, _nnapi_scalar, op_takes, is_real, is_complex.
  destruct (t_dtype input_tensor), output_type, r as [n|], to_int64, to_float32;
    cbn; by split.
Qed.

(** C8, on the code. With an element type that is neither floating nor
    integer, [alternative_argmax] prints nothing and fails no
    assertion: its first op, the [tf.math.reduce_max] of line 186,
    refuses the element type (or line 185 the axis) before the branch
    on the element type is reached. Supplying [epsilon] changes
    nothing: the outcome is the one without [epsilon], an exception. *)
Theorem alternative_argmax_unknown_dtype Color_RED Color_RESET input_tensor axis
    output_type name keepdims epsilon to_int64 to_float32 :
  is_floating (t_dtype input_tensor) = false →
  is_integer (t_dtype input_tensor) = false →
  (alternative_argmax Color_RED Color_RESET input_tensor axis output_type name
     keepdims epsilon to_int64 to_float32).1 = [] ∧
  (∃ e,
     (alternative_argmax Color_RED Color_RESET input_tensor axis output_type name
        keepdims epsilon to_int64 to_float32).2 = Err e ∧
     e ≠ AssertionError) ∧
  alternative_argmax Color_RED Color_RESET input_tensor axis output_type name
    keepdims epsilon to_int64 to_float32
  = alternative_argmax Color_RED Color_RESET input_tensor axis output_type name
      keepdims None to_int64 to_float32.
Proof.
  intros Hf Hi. unfold alternative_argmax.
  rewrite graph_reduce_max_refuses by done.
  destruct (py_getitem (static_shape input_tensor) axis) as [r|e] eqn:Hget.
  - rewrite bind_Ok. cbn. split; [done |]. split; [|done].
    by exists TypeError.
  - cbn. split; [done |]. split; [|done].
    exists e. split; [done |]. by apply py_getitem_not_assertion in Hget.
Qed.

Lemma alternative_argmax_unknown_dtype_with_epsilon :
  is_floating (t_dtype bool_input) = false ∧
  is_integer (t_dtype bool_input) = false ∧
  (alternative_argmax "<red>" "<reset>" bool_input (-1) tf_float32 None false
     (Some (1 # 1000)%Q) false false).1 = [] ∧
  (∃ e,
     (alternative_argmax "<red>" "<reset>" bool_input (-1) tf_float32 None false
        (Some (1 # 1000)%Q) false false).2 = Err e ∧
     e ≠ AssertionError) ∧
  alternative_argmax "<red>" "<reset>" bool_input (-1) tf_float32 None false
    (Some (1 # 1000)%Q) false false
  = alternative_argmax "<red>" "<reset>" bool_input (-1) tf_float32 None false
      None false false.
Proof.
  refine (conj eq_refl (conj eq_refl _)).
  exact (alternative_argmax_unknown_dtype "<red>" "<reset>" bool_input (-1)
           tf_float32 None false (Some (1 # 1000)%Q) false false
           eq_refl eq_refl).
Defined.

(** ** alternative_asin and alternative_acos *)

Lemma tf_multiply_NaN_r x : tf_multiply x NaN = NaN.
Proof. by destruct x. Qed.

Lemma tf_add_NaN_r x : tf_add x NaN = NaN.
Proof. by destruct x. Qed.

Lemma tf_subtract_NaN_r x : tf_subtract x NaN = NaN.
Proof. unfold tf_subtract. apply tf_add_NaN_r. Qed.

(** At 0 the sign indicator [neg] is the quotient of zero by zero. *)
Lemma neg_at_zero :
  tf_divide (tf_multiply (tf_minimum (Fin 0) (Fin 0)) (Fin (-1))) (tf_abs (Fin 0))
  = NaN.
Proof.
  cbn [tf_minimum tf_multiply tf_abs tf_divide]. unfold Reqb.
  rewrite Rabs_R0.
  destruct (Req_dec_T 0 0) as [_ | Hne]; [| by destruct Hne].
  destruct (Req_dec_T (Rmin 0 0 * -1) 0) as [_ | Hne]; [done |].
  destruct Hne. rewrite Rmin_left by lra. lra.
Qed.

(** C10, on the code. At [x = 0] both builders divide zero by [|x| = 0]:
    the sign indicator is not a number and so are the pseudo arcsine
    and arccosine, which therefore are within no tolerance of
    [asin 0 = 0] and [acos 0 = pi/2]. *)
Theorem alternative_asin_acos_at_zero :
  alternative_asin (Fin 0) = NaN ∧
  alternative_acos (Fin 0) = NaN ∧
  ¬ within (1 / 1000) (alternative_asin (Fin 0)) (asin 0) ∧
  ¬ within (1 / 1000) (alternative_acos (Fin 0)) (acos 0).
Proof.
  assert (Hasin : alternative_asin (Fin 0) = NaN).
  { unfold alternative_asin. rewrite neg_at_zero.
    by rewrite !tf_multiply_NaN_r, tf_subtract_NaN_r. }
  assert (Hacos : alternative_acos (Fin 0) = NaN).
  { unfold alternative_acos. rewrite neg_at_zero.
    cbn [tf_multiply]. by rewrite tf_subtract_NaN_r, tf_multiply_NaN_r. }
  rewrite Hasin, Hacos. unfold within. tauto.
Qed.

(** At the other three points of the specification the builders are
    finite and close to the arcsine and the arccosine. *)

Ltac decide_reals :=
  unfold Reqb, Rltb;
  repeat match goal with
         | |- context [Req_dec_T ?a ?b] => destruct (Req_dec_T a b); try lra
         | |- context [Rlt_dec ?a ?b] => destruct (Rlt_dec a b); try lra
         end.

Ltac tf_eval :=
  cbn [tf_abs tf_minimum tf_multiply tf_divide tf_add tf_subtract tf_negative
       tf_sqrt xorb negb Bool.eqb].

Lemma PI_bounds : (31415 / 10000 < PI < 31421 / 10000)%R.
Proof.
  pose proof (PI_2_3_7_ineq 1) as [Hlo Hhi].
  unfold sum_f_R0, tg_alt, PI_2_3_7_tg, Ratan_seq in Hlo, Hhi.
  simpl in Hlo, Hhi.
  split; lra.
Qed.

Lemma sqrt_half_bounds : (7071 / 10000 < sqrt (1 / 2) < 7072 / 10000)%R.
Proof.
  split.
  - rewrite <- (sqrt_pow2 (7071 / 10000)) by lra. apply sqrt_lt_1; lra.
  - rewrite <- (sqrt_pow2 (7072 / 10000)) by lra. apply sqrt_lt_1; lra.
Qed.

Lemma asin_half : asin (1 / 2) = (PI / 6)%R.
Proof. rewrite <- sin_PI6. apply asin_sin. pose proof PI_bounds. lra. Qed.

Lemma acos_half : acos (1 / 2) = (PI / 3)%R.
Proof. rewrite acos_asin by lra. rewrite asin_half. lra. Qed.

Lemma asin_minus_one : asin (-1) = (- (PI / 2))%R.
Proof. replace (-1)%R with (Ropp 1) by lra. by rewrite asin_opp, asin_1. Qed.

Lemma acos_minus_one : acos (-1) = PI.
Proof. replace (-1)%R with (Ropp 1) by lra. rewrite acos_opp, acos_1. lra. Qed.

Lemma alternative_asin_at_one :
  alternative_asin (Fin 1) = Fin (314159265358979 / 200000000000000).
Proof.
  unfold alternative_asin. tf_eval.
  rewrite Rabs_R1, (Rmin_right 1 0) by lra.
  decide_reals. tf_eval. decide_reals. tf_eval.
  replace (1 + - (1))%R with 0%R by lra. rewrite sqrt_0. f_equal. field.
Qed.

Lemma alternative_acos_at_one : alternative_acos (Fin 1) = Fin 0.
Proof.
  unfold alternative_acos. tf_eval.
  rewrite Rabs_R1, (Rmin_right 1 0) by lra.
  decide_reals. tf_eval. decide_reals. tf_eval.
  replace (1 + - (1))%R with 0%R by lra. rewrite sqrt_0. f_equal. field.
Qed.

Lemma alternative_asin_at_minus_one :
  alternative_asin (Fin (-1)) = Fin (- (314159265358979 / 200000000000000)).
Proof.
  unfold alternative_asin. tf_eval.
  rewrite (Rabs_left (-1)), (Rmin_left (-1) 0) by lra.
  decide_reals. tf_eval. decide_reals. tf_eval.
  replace (1 + - - (-1))%R with 0%R by lra. rewrite sqrt_0. f_equal. field.
Qed.

Lemma alternative_acos_at_minus_one :
  alternative_acos (Fin (-1)) = Fin (314159265358979 / 100000000000000).
Proof.
  unfold alternative_acos. tf_eval.
  rewrite (Rabs_left (-1)), (Rmin_left (-1) 0) by lra.
  decide_reals. tf_eval. decide_reals. tf_eval.
  replace (1 + - - (-1))%R with 0%R by lra. rewrite sqrt_0. f_equal. field.
Qed.

Lemma alternative_asin_at_half :
  alternative_asin (Fin (1 / 2)) =
  Fin (314159265358979 / 200000000000000
       - sqrt (1 / 2) * (14808956875 / 10000000000)).
Proof.
  unfold alternative_asin. tf_eval.
  rewrite (Rabs_right (1 / 2)), (Rmin_right (1 / 2) 0) by lra.
  decide_reals. tf_eval. decide_reals. tf_eval.
  replace (1 + - (1 / 2))%R with (1 / 2)%R by lra. f_equal. field.
Qed.

Lemma alternative_acos_at_half :
  alternative_acos (Fin (1 / 2)) =
  Fin (sqrt (1 / 2) * (14808956875 / 10000000000)).
Proof.
  unfold alternative_acos. tf_eval.
  rewrite (Rabs_right (1 / 2)), (Rmin_right (1 / 2) 0) by lra.
  decide_reals. tf_eval. decide_reals. tf_eval.
  replace (1 + - (1 / 2))%R with (1 / 2)%R by lra. f_equal. field.
Qed.

Lemma alternative_asin_acos_close_elsewhere :
  within (1 / 1000) (alternative_asin (Fin (1 / 2))) (asin (1 / 2)) ∧
  within (1 / 1000) (alternative_acos (Fin (1 / 2))) (acos (1 / 2)) ∧
  within (1 / 1000) (alternative_asin (Fin 1)) (asin 1) ∧
  within (1 / 1000) (alternative_acos (Fin 1)) (acos 1) ∧
  within (1 / 1000) (alternative_asin (Fin (-1))) (asin (-1)) ∧
  within (1 / 1000) (alternative_acos (Fin (-1))) (acos (-1)).
Proof.
  rewrite alternative_asin_at_half, alternative_acos_at_half,
    alternative_asin_at_one, alternative_acos_at_one,
    alternative_asin_at_minus_one, alternative_acos_at_minus_one.
  rewrite asin_half, acos_half, asin_minus_one, acos_minus_one, asin_1, acos_1.
  pose proof PI_bounds. pose proof sqrt_half_bounds.
  unfold within. repeat split; apply Rabs_le; split; nra.
Qed.

Lemma alternative_asin_plus_acos_elsewhere :
  within (1 / 1000)
    (tf_add (alternative_asin (Fin (1 / 2))) (alternative_acos (Fin (1 / 2))))
    (PI / 2) ∧
  within (1 / 1000)
    (tf_add (alternative_asin (Fin 1)) (alternative_acos (Fin 1))) (PI / 2) ∧
  within (1 / 1000)
    (tf_add (alternative_asin (Fin (-1))) (alternative_acos (Fin (-1)))) (PI / 2).
Proof.
  rewrite alternative_asin_at_half, alternative_acos_at_half,
    alternative_asin_at_one, alternative_acos_at_one,
    alternative_asin_at_minus_one, alternative_acos_at_minus_one.
  pose proof PI_bounds.
  unfold within, tf_add. repeat split; apply Rabs_le; split; lra.
Qed.
(** ** Axis converter: every axis *)

Lemma py_getitem_ok_iff {A} (l : list A) (k : Z) :
  is_ok (py_getitem l k) = true ↔ - Z.of_nat (length l) ≤ k < Z.of_nat (length l).
Proof.
  unfold py_getitem, py_index.
  repeat case_bool_decide.
  - destruct (l !! Z.to_nat k) eqn:Hl; cbn; [split; [lia | done] |].
    apply lookup_ge_None in Hl. lia.
  - destruct (l !! Z.to_nat (Z.of_nat (length l) + k)) eqn:Hl; cbn;
      [split; [lia | done] |].
    apply lookup_ge_None in Hl. lia.
  - cbn. split; [done | lia].
Qed.

Lemma py_getitem_negative {A} (l : list A) (k : Z) :
  - Z.of_nat (length l) ≤ k < 0 →
  py_getitem l k = py_getitem l (Z.of_nat (length l) + k).
Proof.
  intros Hk. unfold py_getitem, py_index.
  rewrite (bool_decide_eq_false_2 (0 ≤ k < _)) by lia.
  rewrite (bool_decide_eq_true_2 (- _ ≤ k < 0)) by lia.
  by rewrite (bool_decide_eq_true_2 (0 ≤ _ + k < _)) by lia.
Qed.

Lemma convert_axis_table_length tensor_rank :
  2 < tensor_rank →
  Z.of_nat (length ([0] ++ [tensor_rank - 1] ++ py_range 1 (tensor_rank - 1)))
  = tensor_rank.
Proof. intros Hr. rewrite !length_app, py_range_length. cbn. lia. Qed.

(** X1. On a tensor of rank 3 or more a valid axis is converted by the
    channel-first to channel-last table: the batch axis 0 stays, the
    channel axis 1 becomes the last axis, every later axis moves down
    by one. *)
Theorem convert_axis_nchw_to_nhwc axis tensor_rank :
  2 < tensor_rank → 0 ≤ axis < tensor_rank →
  convert_axis (PyInt axis) tensor_rank =
    Ok (if bool_decide (axis = 0) then 0
        else if bool_decide (axis = 1) then tensor_rank - 1
        else axis - 1).
Proof. apply convert_axis_table. Qed.

Lemma convert_axis_nchw_to_nhwc_example :
  2 < 5 ∧ 0 ≤ 3 < 5 ∧ convert_axis (PyInt 3) 5 = Ok 2.
Proof.
  assert (Hr : 2 < 5) by lia. assert (Ha : 0 ≤ 3 < 5) by lia.
  refine (conj Hr (conj Ha _)).
  exact (convert_axis_nchw_to_nhwc 3 5 Hr Ha).
Defined.

Lemma convert_axis_valid axis tensor_rank :
  0 ≤ axis < tensor_rank →
  convert_axis (PyInt axis) tensor_rank =
    Ok (if bool_decide (2 < tensor_rank) then
          if bool_decide (axis = 0) then 0
          else if bool_decide (axis = 1) then tensor_rank - 1
          else axis - 1
        else axis).
Proof.
  intros Ha. case_bool_decide as Hr.
  - by apply convert_axis_table.
  - rewrite convert_axis_low_rank by lia. by rewrite bool_decide_eq_true_2 by lia.
Qed.

(** X2. For a fixed rank the converter is a permutation of the valid
    axes: it sends valid axes to valid axes, two different valid axes to
    different axes, and every valid axis is the image of one. *)
Theorem convert_axis_permutation tensor_rank :
  (∀ a, 0 ≤ a < tensor_rank →
     ∃ c, convert_axis (PyInt a) tensor_rank = Ok c ∧ 0 ≤ c < tensor_rank) ∧
  (∀ a b, 0 ≤ a < tensor_rank → 0 ≤ b < tensor_rank →
     convert_axis (PyInt a) tensor_rank = convert_axis (PyInt b) tensor_rank →
     a = b) ∧
  (∀ c, 0 ≤ c < tensor_rank →
     ∃ a, 0 ≤ a < tensor_rank ∧ convert_axis (PyInt a) tensor_rank = Ok c).
Proof.
  split; [|split].
  - intros a Ha. eexists. split; [by apply convert_axis_valid |].
    repeat case_bool_decide; lia.
  - intros a b Ha Hb. rewrite !convert_axis_valid by done.
    intros [= Heq]. repeat case_bool_decide; lia.
  - intros c Hc.
    exists (if bool_decide (2 < tensor_rank) then
              if bool_decide (c = 0) then 0
              else if bool_decide (c = tensor_rank - 1) then 1
              else c + 1
            else c).
    split; [repeat case_bool_decide; lia |].
    rewrite convert_axis_valid by (repeat case_bool_decide; lia).
    f_equal. repeat case_bool_decide; lia.
Qed.

Lemma convert_axis_permutation_example :
  (0 ≤ 1 < 4 ∧ ∃ c, convert_axis (PyInt 1) 4 = Ok c ∧ 0 ≤ c < 4) ∧
  (0 ≤ 2 < 4 ∧ ∃ a, 0 ≤ a < 4 ∧ convert_axis (PyInt a) 4 = Ok 2).
Proof.
  assert (H1 : 0 ≤ 1 < 4) by lia. assert (H2 : 0 ≤ 2 < 4) by lia.
  refine (conj (conj H1 _) (conj H2 _)).
  - exact (proj1 (convert_axis_permutation 4) 1 H1).
  - exact (proj2 (proj2 (convert_axis_permutation 4)) 2 H2).
Defined.

(** X3. A negative axis counts from the end: for a valid axis [a] the
    converter gives the same result on [a - tensor_rank] as on [a]. *)
Theorem convert_axis_negative axis tensor_rank :
  0 ≤ axis < tensor_rank →
  convert_axis (PyInt (axis - tensor_rank)) tensor_rank =
  convert_axis (PyInt axis) tensor_rank.
Proof.
  intros Ha. unfold convert_axis.
  rewrite (bool_decide_eq_false_2 (0 ≤ axis - tensor_rank)) by lia.
  rewrite (bool_decide_eq_true_2 (0 ≤ axis)) by lia.
  by replace (axis - tensor_rank + tensor_rank) with axis by lia.
Qed.

Lemma convert_axis_negative_example :
  0 ≤ 3 < 4 ∧ convert_axis (PyInt (3 - 4)) 4 = convert_axis (PyInt 3) 4.
Proof.
  assert (Ha : 0 ≤ 3 < 4) by lia.
  exact (conj Ha (convert_axis_negative 3 4 Ha)).
Defined.

(** X4. From rank 3 on the converter raises (IndexError) exactly on the
    axes outside [-2 * tensor_rank, tensor_rank): an axis in
    [-2 * tensor_rank, -tensor_rank) is not rejected but wraps a second
    time, and gives what [axis + 2 * tensor_rank] gives. Up to rank 2
    nothing is checked: every axis is accepted. *)
Theorem convert_axis_bounds axis tensor_rank :
  (2 < tensor_rank →
     (is_ok (convert_axis (PyInt axis) tensor_rank) = true ↔
        - 2 * tensor_rank ≤ axis < tensor_rank) ∧
     (¬ (- 2 * tensor_rank ≤ axis < tensor_rank) →
        convert_axis (PyInt axis) tensor_rank = Err IndexError) ∧
     (- 2 * tensor_rank ≤ axis < - tensor_rank →
        convert_axis (PyInt axis) tensor_rank =
        convert_axis (PyInt (axis + 2 * tensor_rank)) tensor_rank)) ∧
  (tensor_rank ≤ 2 → is_ok (convert_axis (PyInt axis) tensor_rank) = true).
Proof.
  split.
  - intros Hr.
    assert (Hok : is_ok (convert_axis (PyInt axis) tensor_rank) = true ↔
                  - 2 * tensor_rank ≤ axis < tensor_rank).
    { unfold convert_axis. rewrite (bool_decide_eq_true_2 (2 < _)) by done.
      rewrite py_getitem_ok_iff, convert_axis_table_length by done.
      case_bool_decide; lia. }
    split; [done |]. split.
    + intros Hout. rewrite <- Hok in Hout.
      unfold convert_axis in *. rewrite (bool_decide_eq_true_2 (2 < _)) in * by done.
      unfold py_getitem in *. repeat case_match; simplify_eq; done.
    + intros Hw. unfold convert_axis.
      rewrite (bool_decide_eq_true_2 (2 < _)) by done.
      rewrite (bool_decide_eq_false_2 (0 ≤ axis)) by lia.
      rewrite (bool_decide_eq_true_2 (0 ≤ axis + _)) by lia.
      rewrite py_getitem_negative by (rewrite convert_axis_table_length; lia).
      rewrite convert_axis_table_length by done. f_equal. lia.
  - intros Hr. by rewrite convert_axis_low_rank.
Qed.

Lemma convert_axis_bounds_example :
  (2 < 4 ∧ ¬ (- 2 * 4 ≤ 4 < 4) ∧ convert_axis (PyInt 4) 4 = Err IndexError) ∧
  (- 2 * 4 ≤ -5 < - 4 ∧ convert_axis (PyInt (-5)) 4 = Ok 2) ∧
  (2 ≤ 2 ∧ is_ok (convert_axis (PyInt 7) 2) = true).
Proof.
  assert (Hr : 2 < 4) by lia.
  assert (Hout : ¬ (- 2 * 4 ≤ 4 < 4)) by lia.
  assert (Hw : - 2 * 4 ≤ -5 < - 4) by lia.
  assert (Hl : 2 ≤ 2) by lia.
  refine (conj (conj Hr (conj Hout _)) (conj (conj Hw _) (conj Hl _))).
  - exact (proj1 (proj2 (proj1 (convert_axis_bounds 4 4) Hr)) Hout).
  - exact (proj2 (proj2 (proj1 (convert_axis_bounds (-5) 4) Hr)) Hw).
  - exact (proj2 (convert_axis_bounds 7 2) Hl).
Defined.

(** ** Resolver and ReduceMin: what never happens *)

Lemma np_transpose_errors a axes e : np_transpose a axes = Err e → e = ValueError.
Proof. unfold np_transpose. repeat case_match; by intros [= <-]. Qed.

Lemma get_constant_over_rank_2 name values :
  2 < ndim values →
  get_constant_or_variable (Constant name values) = Err ValueError.
Proof.
  intros Hr. unfold get_constant_or_variable.
  rewrite bool_decide_eq_true_2 by done.
  destruct (np_transpose _ _) as [r | e] eqn:Ht.
  - unfold np_transpose in Ht.
    rewrite bool_decide_eq_false_2 in Ht; [done |].
    rewrite convertion_table_length. unfold ndim in *. lia.
  - by apply np_transpose_errors in Ht as ->.
Qed.

(** X5. The resolver never permutes anything: it returns exactly when
    the operand is a variable or a constant of rank at most 2, and what
    it returns is the variable itself or the constant's own values. *)
Theorem get_constant_or_variable_returns const_or_var r :
  get_constant_or_variable const_or_var = Ok r ↔
  match const_or_var with
  | Constant _ values => ndim values ≤ 2 ∧ r = NumpyArray values
  | Var v => r = GsVariable v
  end.
Proof.
  destruct const_or_var as [name values | v].
  - destruct (decide (ndim values ≤ 2)) as [Hr | Hr].
    + rewrite get_constant_low_rank by done. split.
      * by intros [= <-].
      * by intros [_ ->].
    + rewrite get_constant_over_rank_2 by lia. split; [done | tauto].
  - cbn. split; [by intros [= <-] | by intros ->].
Qed.

Lemma convert_axis_errors axis tensor_rank e :
  convert_axis axis tensor_rank = Err e → e = TypeError ∨ e = IndexError.
Proof.
  unfold convert_axis, py_getitem.
  repeat case_match; intros [= <-]; auto.
Qed.

Lemma make_node_axes_errors attrs tensor_rank :
  make_node_axes attrs tensor_rank = Err TypeError ∨
  make_node_axes attrs tensor_rank = Err IndexError.
Proof.
  unfold make_node_axes.
  destruct (convert_axis _ tensor_rank) as [c | e] eqn:Hc; cbn; [by left |].
  apply convert_axis_errors in Hc as [-> | ->]; auto.
Qed.

(** X6. [make_node] of ReduceMin never registers anything: whatever the
    node (its [axes] an integer, a list of integers or left out) and
    the map, it raises, with [IndexError] (no input or output, or an
    integer [axes] out of range), [ValueError] (a constant input of
    rank above 2) or [TypeError] (the axes), and no updated map ever
    comes back. *)
Theorem make_node_always_raises graph_node tf_layers_dict :
  ∃ e, make_node graph_node tf_layers_dict = Err e ∧
       (e = IndexError ∨ e = ValueError ∨ e = TypeError).
Proof.
  unfold make_node.
  destruct (py_getitem (node_inputs graph_node) 0) as [input0 | e] eqn:Hin; cbn.
  2:{ exists e. split; [done |]. unfold py_getitem in Hin.
      repeat case_match; simplify_eq; auto. }
  destruct (get_constant_or_variable input0) as [r | e] eqn:Hres; cbn.
  2:{ exists e. split; [done |]. destruct input0 as [name values | v]; [|done].
      unfold get_constant_or_variable in Hres.
      case_bool_decide; [|done].
      destruct (np_transpose _ _) eqn:Ht; [done |].
      cbn in Hres. simplify_eq. apply np_transpose_errors in Ht. auto. }
  destruct (py_getitem (node_outputs graph_node) 0) as [out | e] eqn:Hout; cbn.
  2:{ exists e. split; [done |]. unfold py_getitem in Hout.
      repeat case_match; simplify_eq; auto. }
  match goal with
  | |- context [make_node_axes ?a ?r] =>
      destruct (make_node_axes_errors a r) as [-> | ->]
  end; cbn; eauto.
Qed.

(** ** The name [calc_pads_same_pooling] *)

(** X7. No call of the global name [calc_pads_same_pooling] returns pads,
    whatever keywords it passes: the function of line 472 answers, and
    either rejects the keywords or calls itself with keywords it does
    not have. The body of line 357 is out of reach. *)
Theorem call_global_always_type_error depth kw :
  call_global (S (S depth)) "calc_pads_same_pooling" kw = Err TypeError.
Proof.
  cbn [call_global]. rewrite !calc_pads_same_pooling_binding.
  destruct kw as [[?|] [?|] [?|] [?|] [?|] [?|] [?|] [?|]]; reflexivity.
Qed.

(** ** Explicit pads *)

Lemma foldlM_app {A B} (f : A → B → result A) (a : A) (l1 l2 : list B) :
  foldlM f a (l1 ++ l2) = a' ← foldlM f a l1; foldlM f a' l2.
Proof.
  revert a. induction l1 as [|x l1 IH]; intros a; cbn; [done |].
  destruct (f a x); cbn; [apply IH | done].
Qed.

(** A loop over [range(n)] whose first [m] rounds append and whose
    round [m] raises, raises. *)
Lemma foldlM_raises_at {B} (f : list B → Z → result (list B)) (h : nat → list B)
    (n m : nat) (e : exn) (acc : list B) :
  (m < n)%nat →
  (∀ acc k, (k < m)%nat → f acc (Z.of_nat k) = Ok (acc ++ h k)) →
  (∀ acc, f acc (Z.of_nat m) = Err e) →
  foldlM f acc (py_range 0 (Z.of_nat n)) = Err e.
Proof.
  intros Hm Hok Herr. rewrite py_range_seq.
  replace n with (m + S (n - m - 1))%nat by lia.
  rewrite seq_app, fmap_app, foldlM_app.
  rewrite (foldlM_ok_app _ h).
  - rewrite bind_Ok. cbn. by rewrite Herr.
  - intros acc' k [_ Hk]%elem_of_seq. apply Hok. lia.
Qed.

Lemma py_getitem_beyond {A} (l : list A) (k : nat) :
  (length l ≤ k)%nat → py_getitem l (Z.of_nat k) = Err IndexError.
Proof.
  intros Hk. unfold py_getitem, py_index.
  rewrite bool_decide_eq_false_2 by lia.
  by rewrite bool_decide_eq_false_2 by lia.
Qed.

Lemma py_getitem_errors {A} (l : list A) (k : Z) (e : exn) :
  py_getitem l k = Err e → e = IndexError.
Proof. unfold py_getitem. repeat case_match; by intros [= <-]. Qed.

Lemma calc_pads_explicit_pooling_cases padding spatial_size :
  ((spatial_size * 2 ≤ length padding)%nat →
     calc_pads_explicit_pooling padding spatial_size =
     Ok (begin_end_pairs padding spatial_size)) ∧
  ((length padding < spatial_size * 2)%nat →
     calc_pads_explicit_pooling padding spatial_size = Err IndexError).
Proof.
  unfold calc_pads_explicit_pooling. split.
  - intros Hlen. rewrite py_range_seq.
    rewrite (foldlM_ok_app _
      (λ i : nat, [padding !!! i; padding !!! (i + spatial_size)%nat])); [done |].
    intros acc k [_ Hk]%elem_of_seq. cbn in Hk.
    replace (Z.of_nat k + Z.of_nat spatial_size)
      with (Z.of_nat (k + spatial_size)) by lia.
    by rewrite !py_getitem_total by lia.
  - intros Hlen.
    apply (foldlM_raises_at _
      (λ i : nat, [padding !!! i; padding !!! (i + spatial_size)%nat])
      spatial_size (length padding - spatial_size)); [lia | |].
    + intros acc k Hk.
      replace (Z.of_nat k + Z.of_nat spatial_size)
        with (Z.of_nat (k + spatial_size)) by lia.
      by rewrite !py_getitem_total by lia.
    + intros acc.
      replace (Z.of_nat (length padding - spatial_size) + Z.of_nat spatial_size)
        with (Z.of_nat (length padding - spatial_size + spatial_size)) by lia.
      rewrite (py_getitem_beyond padding (_ + _)) by lia.
      destruct (py_getitem padding _) as [b | e] eqn:Hb; [done |].
      by apply py_getitem_errors in Hb as ->.
Qed.

(** X8. [calc_pads_explicit_pooling] turns the list
    [[b0, ..., bn-1, e0, ..., en-1]] into [[b0, e0, ..., bn-1, en-1]]
    when the list has at least [2 * spatial_size] entries (further
    entries are ignored), and raises [IndexError] when it has fewer. *)
Theorem calc_pads_explicit_pooling_layout padding spatial_size :
  ((spatial_size * 2 ≤ length padding)%nat →
     calc_pads_explicit_pooling padding spatial_size =
     Ok (begin_end_pairs padding spatial_size)) ∧
  ((length padding < spatial_size * 2)%nat →
     calc_pads_explicit_pooling padding spatial_size = Err IndexError).
Proof. apply calc_pads_explicit_pooling_cases. Qed.

Lemma calc_pads_explicit_pooling_layout_example :
  ((2 * 2 ≤ length [1; 3; 2; 4; 9])%nat ∧
   calc_pads_explicit_pooling [1; 3; 2; 4; 9] 2 = Ok [1; 2; 3; 4]) ∧
  ((length [1; 3; 2] < 2 * 2)%nat ∧
   calc_pads_explicit_pooling [1; 3; 2] 2 = Err IndexError).
Proof.
  assert (H1 : (2 * 2 ≤ length [1; 3; 2; 4; 9])%nat) by (cbn; lia).
  assert (H2 : (length [1; 3; 2] < 2 * 2)%nat) by (cbn; lia).
  refine (conj (conj H1 _) (conj H2 _)).
  - exact (proj1 (calc_pads_explicit_pooling_layout [1; 3; 2; 4; 9] 2) H1).
  - exact (proj2 (calc_pads_explicit_pooling_layout [1; 3; 2] 2) H2).
Defined.

Lemma begin_end_pairs_length padding spatial_size :
  length (begin_end_pairs padding spatial_size) = (spatial_size * 2)%nat.
Proof. unfold begin_end_pairs. by rewrite length_concat_pairs, length_seq. Qed.

Lemma zip_with_add_zeros (n : nat) (p : list Z) :
  length p = n → zip_with Z.add (replicate n 0) p = p.
Proof.
  intros Hp. rewrite zip_with_replicate_l by lia.
  induction p as [|x p IH] in |- *; [done |]. cbn. f_equal.
  clear. induction p as [|y p IH]; [done |]. cbn. by f_equal.
Qed.

(** X9. With an explicit list and no ceil mode the calculator only
    re-lays the list out: kernel, strides, dilations, the input shape
    and the backend flag play no part, and a list with fewer than
    [2 * spatial_size] entries raises [IndexError]. At least one
    spatial axis is asked for: with none, [+=] would add an empty list,
    which numpy and tensorflow read as floating. *)
Theorem calc_pads_pooling_explicit kernel_shape strides dilations padding
    is_known_shape spatial_size in_spatial_shape :
  (0 < spatial_size)%nat →
  calc_pads_pooling kernel_shape strides dilations (PadList padding) is_known_shape
    spatial_size in_spatial_shape false =
  if bool_decide (spatial_size * 2 ≤ length padding)%nat
  then Ok (begin_end_pairs padding spatial_size)
  else Err IndexError.
Proof.
  intros _. unfold calc_pads_pooling, calc_pads_pooling_body. cbn [andb].
  destruct (calc_pads_explicit_pooling_cases padding spatial_size) as [Hok Herr].
  case_bool_decide as Hlen.
  - rewrite Hok by done. rewrite !bind_Ok.
    assert (Hz : (if is_known_shape then np_zeros (spatial_size * 2)
                  else tf_zeros (spatial_size * 2)) = replicate (spatial_size * 2) 0)
      by (by destruct is_known_shape).
    rewrite Hz, iadd_same_length
      by (by rewrite begin_end_pairs_length, length_replicate).
    rewrite bind_Ok.
    by rewrite zip_with_add_zeros by apply begin_end_pairs_length.
  - by rewrite Herr by lia.
Qed.

Lemma calc_pads_pooling_explicit_example :
  (0 < 2)%nat ∧
  calc_pads_pooling [] [] [] (PadList [1; 3; 2; 4]) true 2 [] false = Ok [1; 2; 3; 4].
Proof.
  assert (Hn : (0 < 2)%nat) by lia.
  exact (conj Hn (calc_pads_pooling_explicit [] [] [] [1; 3; 2; 4] true 2 [] Hn)).
Defined.

(** X10. A mode string that does not start with "same", in whatever
    letter case ("VALID", "NOTSET", a misspelling), is not reported:
    without ceil mode the calculator returns one zero pair per axis. *)
Theorem calc_pads_pooling_other_mode kernel_shape strides dilations padding
    is_known_shape spatial_size in_spatial_shape :
  is_same_mode padding = false →
  calc_pads_pooling kernel_shape strides dilations (PadStr padding) is_known_shape
    spatial_size in_spatial_shape false = Ok (replicate (spatial_size * 2) 0).
Proof.
  intros Hmode. unfold calc_pads_pooling, calc_pads_pooling_body.
  rewrite Hmode. by destruct is_known_shape.
Qed.

Lemma calc_pads_pooling_other_mode_example :
  is_same_mode "Sane_upper" = false ∧
  calc_pads_pooling [3] [2] [1] (PadStr "Sane_upper") true 1 [10] false = Ok [0; 0].
Proof.
  assert (Hm : is_same_mode "Sane_upper" = false) by reflexivity.
  exact (conj Hm (calc_pads_pooling_other_mode [3] [2] [1] "Sane_upper" true 1 [10] Hm)).
Defined.

(** X11. Whenever the calculator returns pads, there are exactly
    [2 * spatial_size] of them. *)
Theorem calc_pads_pooling_length kernel_shape strides dilations padding
    is_known_shape spatial_size in_spatial_shape ceil_mode pads :
  calc_pads_pooling kernel_shape strides dilations padding is_known_shape
    spatial_size in_spatial_shape ceil_mode = Ok pads →
  length pads = (spatial_size * 2)%nat.
Proof.
  destruct ceil_mode; [| apply calc_pads_pooling_base_length].
  destruct (calc_pads_pooling kernel_shape strides dilations padding is_known_shape
              spatial_size in_spatial_shape false) as [base | e] eqn:Hbase.
  - apply calc_pads_pooling_base_length in Hbase as Hlen.
    revert Hbase. unfold calc_pads_pooling, calc_pads_pooling_body. cbn [andb].
    destruct padding as [l | s].
    + destruct (calc_pads_explicit_pooling l spatial_size) as [p|?]; [|done].
      rewrite !bind_Ok. destruct (iadd _ p) as [r|?]; [|done].
      rewrite !bind_Ok. intros [= ->].
      destruct (mapM _ _) as [shape|?]; [|done]. rewrite bind_Ok.
      destruct (calc_pads_ceil_mode_pooling _ _ _ _ _ _) as [q|?]; [|done].
      rewrite bind_Ok. intros Hadd%iadd_length. by rewrite Hadd.
    + destruct (is_same_mode s).
      { by rewrite calc_pads_same_pooling_type_error. }
      cbn [negb]. rewrite !bind_Ok. intros [= <-].
      destruct (mapM _ _) as [shape|?]; [|done]. rewrite bind_Ok.
      destruct (calc_pads_ceil_mode_pooling _ _ _ _ _ _) as [q|?]; [|done].
      rewrite bind_Ok. intros Hadd%iadd_length. by rewrite Hadd.
  - revert Hbase. unfold calc_pads_pooling, calc_pads_pooling_body. cbn [andb].
    destruct padding as [l | s].
    + destruct (calc_pads_explicit_pooling l spatial_size) as [p|?]; [|done].
      rewrite !bind_Ok. by destruct (iadd _ p).
    + destruct (is_same_mode s).
      { by rewrite calc_pads_same_pooling_type_error. }
      done.
Qed.

Lemma calc_pads_pooling_length_example :
  calc_pads_pooling [3; 3] [2; 2] [1; 1] (PadStr "VALID") true 2 [10; 7] true
    = Ok [0; 2; 0; 0] ∧
  length [0; 2; 0; 0] = (2 * 2)%nat.
Proof.
  assert (H : calc_pads_pooling [3; 3] [2; 2] [1; 1] (PadStr "VALID") true 2
                [10; 7] true = Ok [0; 2; 0; 0]) by reflexivity.
  exact (conj H (calc_pads_pooling_length _ _ _ _ _ _ _ _ _ H)).
Defined.

(** ** Ceil-mode pads *)

Lemma lookup_total_concat_pairs (a b : nat → Z) (n i : nat) :
  (i < n)%nat →
  concat ((λ k, [a k; b k]) <$> seq 0 n) !!! (i * 2)%nat = a i ∧
  concat ((λ k, [a k; b k]) <$> seq 0 n) !!! (i * 2 + 1)%nat = b i.
Proof.
  induction n as [|n IH]; [lia |]. intros Hi.
  rewrite seq_S, fmap_app, concat_app. cbn [fmap list_fmap concat app Nat.add].
  destruct (decide (i < n)%nat) as [Hlt | Hge].
  - rewrite !lookup_total_app_l
      by (rewrite length_concat_pairs, length_seq; lia).
    by apply IH.
  - assert (i = n) as -> by lia.
    rewrite !lookup_total_app_r
      by (rewrite length_concat_pairs, length_seq; lia).
    rewrite length_concat_pairs, length_seq.
    replace (n * 2 - n * 2)%nat with 0%nat by lia.
    replace (n * 2 + 1 - n * 2)%nat with 1%nat by lia. done.
Qed.

Lemma floor_div_ceil_extra d stride :
  0 < stride →
  floor_div (d + (if bool_decide (d `mod` stride = 0) then 0 else stride)) stride
  = ceil_div d stride.
Proof.
  intros Hs. unfold floor_div, ceil_div. case_bool_decide as Hmod.
  - apply Z.mod_divide in Hmod; [|lia]. destruct Hmod as [c ->].
    rewrite Z.add_0_r, <- Z.mul_opp_l, !Z.div_mul by lia. lia.
  - rewrite Z.div_opp_l_nz by lia.
    replace (d + stride) with (d + 1 * stride) by lia.
    rewrite Z.div_add by lia. lia.
Qed.

(** X12. On the numpy path ([is_known_shape] true), with one entry per
    axis in each list, strides that are positive and [dim_size -
    filter_size] and strides that a [float64] holds exactly,
    [calc_pads_ceil_mode_pooling] returns, per axis, nothing for the
    begin slot and for the end slot either nothing, when the stride
    divides [dim_size - filter_size], or exactly one stride; with
    these pads the window count rounded down is the window count of the
    unpadded axis rounded up. *)
Theorem calc_pads_ceil_mode_pooling_one_stride in_spatial_shape spatial_size
    kernel_shape dilations strides :
  length in_spatial_shape = spatial_size →
  length kernel_shape = spatial_size →
  length dilations = spatial_size →
  length strides = spatial_size →
  Forall (λ s, 0 < s < 2 ^ 53) strides →
  (∀ i, (i < spatial_size)%nat →
     float64_exact (in_spatial_shape !!! i - filter_size_of kernel_shape dilations i)) →
  ∃ pads,
    calc_pads_ceil_mode_pooling in_spatial_shape spatial_size kernel_shape
      dilations strides true = Ok pads ∧
    length pads = (spatial_size * 2)%nat ∧
    ∀ i, (i < spatial_size)%nat →
      let d := in_spatial_shape !!! i - filter_size_of kernel_shape dilations i in
      pads !!! (i * 2)%nat = 0 ∧
      pads !!! (i * 2 + 1)%nat =
        (if bool_decide (d `mod` strides !!! i = 0) then 0 else strides !!! i) ∧
      floor_div (d + pads !!! (i * 2)%nat + pads !!! (i * 2 + 1)%nat) (strides !!! i)
        = ceil_div d (strides !!! i).
Proof.
  intros Hin Hk Hd Hs Hbound _.
  assert (Hpos : Forall (λ s, 0 < s) strides).
  { eapply Forall_impl; [done |]. cbn. lia. }
  eexists. split; [apply calc_pads_ceil_mode_pooling_ok; lia |].
  split; [by rewrite length_concat_pairs, length_seq |].
  intros i Hi d.
  assert (Hsi : 0 < strides !!! i).
  { rewrite Forall_lookup_total in Hpos. apply Hpos. lia. }
  destruct (lookup_total_concat_pairs (λ _, 0)
    (λ k, ceil_extra (in_spatial_shape !!! k)
            ((kernel_shape !!! k - 1) * dilations !!! k + 1) (strides !!! k))
    spatial_size i Hi) as [-> ->].
  rewrite ceil_extra_cases by done. fold (filter_size_of kernel_shape dilations i).
  fold d. split; [done |]. split; [done |].
  rewrite Z.add_0_r. by apply floor_div_ceil_extra.
Qed.

Lemma calc_pads_ceil_mode_pooling_one_stride_example :
  Forall (λ s, 0 < s < 2 ^ 53) [2; 3] ∧
  (∀ i, (i < 2)%nat →
     float64_exact ([10; 7] !!! i - filter_size_of [3; 1] [1; 1] i)) ∧
  ∃ pads,
    calc_pads_ceil_mode_pooling [10; 7] 2 [3; 1] [1; 1] [2; 3] true = Ok pads ∧
    length pads = (2 * 2)%nat ∧
    ∀ i, (i < 2)%nat →
      let d := [10; 7] !!! i - filter_size_of [3; 1] [1; 1] i in
      pads !!! (i * 2)%nat = 0 ∧
      pads !!! (i * 2 + 1)%nat =
        (if bool_decide (d `mod` [2; 3] !!! i = 0) then 0 else [2; 3] !!! i) ∧
      floor_div (d + pads !!! (i * 2)%nat + pads !!! (i * 2 + 1)%nat) ([2; 3] !!! i)
        = ceil_div d ([2; 3] !!! i).
Proof.
  assert (Hpos : Forall (λ s, 0 < s < 2 ^ 53) [2; 3]) by (repeat constructor).
  assert (Hexact : ∀ i, (i < 2)%nat →
            float64_exact ([10; 7] !!! i - filter_size_of [3; 1] [1; 1] i)).
  { intros [|[|i]] Hi; [by vm_compute | by vm_compute | lia]. }
  exact (conj Hpos (conj Hexact
    (calc_pads_ceil_mode_pooling_one_stride [10; 7] 2 [3; 1] [1; 1] [2; 3]
       eq_refl eq_refl eq_refl eq_refl Hpos Hexact))).
Defined.

(** X13. When one of the four lists has fewer entries than
    [spatial_size], [calc_pads_ceil_mode_pooling] raises [IndexError]
    and returns no partial pads. The entries are 64-bit integers and no
    stride is zero, so that no division raises on the axes before the
    missing entry. *)
Theorem calc_pads_ceil_mode_pooling_short in_spatial_shape spatial_size
    kernel_shape dilations strides is_known_shape :
  Forall is_int64 (in_spatial_shape ++ kernel_shape ++ dilations ++ strides) →
  Forall (λ s, s ≠ 0) strides →
  (length in_spatial_shape < spatial_size ∨ length kernel_shape < spatial_size ∨
   length dilations < spatial_size ∨ length strides < spatial_size)%nat →
  calc_pads_ceil_mode_pooling in_spatial_shape spatial_size kernel_shape dilations
    strides is_known_shape = Err IndexError.
Proof.
  intros _ _ Hshort. unfold calc_pads_ceil_mode_pooling.
  set (m := Nat.min (Nat.min (length in_spatial_shape) (length kernel_shape))
                    (Nat.min (length dilations) (length strides))).
  apply (foldlM_raises_at _ (λ i : nat,
    [0; (if is_known_shape
         then np_astype_int64
                (np_ceil (truediv (in_spatial_shape !!! i
                   - ((kernel_shape !!! i - 1) * dilations !!! i + 1)) (strides !!! i))
                 - np_floor (truediv (in_spatial_shape !!! i
                   - ((kernel_shape !!! i - 1) * dilations !!! i + 1)) (strides !!! i)))%Q
         else tf_cast_int64
                (tf_math_ceil (truediv (in_spatial_shape !!! i
                   - ((kernel_shape !!! i - 1) * dilations !!! i + 1)) (strides !!! i))
                 - tf_math_floor (truediv (in_spatial_shape !!! i
                   - ((kernel_shape !!! i - 1) * dilations !!! i + 1)) (strides !!! i)))%Q)
        * strides !!! i]) spatial_size m); [lia | |].
  - intros acc k Hk. by rewrite !py_getitem_total by lia.
  - intros acc.
    destruct (decide (length in_spatial_shape ≤ m)%nat).
    { by rewrite (py_getitem_beyond in_spatial_shape) by done. }
    rewrite (py_getitem_total in_spatial_shape) by lia. rewrite bind_Ok.
    destruct (decide (length kernel_shape ≤ m)%nat).
    { by rewrite (py_getitem_beyond kernel_shape) by done. }
    rewrite (py_getitem_total kernel_shape) by lia. rewrite bind_Ok.
    destruct (decide (length dilations ≤ m)%nat).
    { by rewrite (py_getitem_beyond dilations) by done. }
    rewrite (py_getitem_total dilations) by lia. rewrite bind_Ok.
    by rewrite (py_getitem_beyond strides) by lia.
Qed.

Lemma calc_pads_ceil_mode_pooling_short_example :
  Forall is_int64 ([10; 7] ++ [3; 3] ++ [1; 1] ++ [2]) ∧
  Forall (λ s, s ≠ 0) [2] ∧
  (length [10; 7] < 2 ∨ length [3; 3] < 2 ∨
   length [1; 1] < 2 ∨ length [2] < 2)%nat ∧
  calc_pads_ceil_mode_pooling [10; 7] 2 [3; 3] [1; 1] [2] true = Err IndexError.
Proof.
  assert (Hint : Forall is_int64 ([10; 7] ++ [3; 3] ++ [1; 1] ++ [2])).
  { cbn. repeat first [apply Forall_nil_2
                      | apply Forall_cons_2; [unfold is_int64; lia |]]. }
  assert (Hnz : Forall (λ s, s ≠ 0) [2]).
  { apply Forall_cons_2; [lia | apply Forall_nil_2]. }
  assert (H : (length [10; 7] < 2 ∨ length [3; 3] < 2 ∨
               length [1; 1] < 2 ∨ length [2] < 2)%nat)
    by (right; right; right; cbn; lia).
  exact (conj Hint (conj Hnz (conj H
    (calc_pads_ceil_mode_pooling_short [10; 7] 2 [3; 3] [1; 1] [2] true
       Hint Hnz H)))).
Defined.

(** ** The "same" pads of line 357 *)

Lemma foldlM_ok_foldl {A} (f : A → Z → result A) (g : A → nat → A) (P : A → Prop)
    (l : list nat) (a : A) :
  (∀ a k, k ∈ l → P a → f a (Z.of_nat k) = Ok (g a k) ∧ P (g a k)) →
  P a →
  foldlM f a (Z.of_nat <$> l) = Ok (foldl g a l) ∧ P (foldl g a l).
Proof.
  revert a. induction l as [|k l IH]; intros a Hf Ha; cbn; [done |].
  destruct (Hf a k) as [-> Hg]; [by left | done |]. rewrite bind_Ok.
  apply IH; [| done]. intros a' j Hj. apply Hf. by right.
Qed.

Lemma py_setitem_nonneg {A} (l : list A) (k : nat) (x : A) :
  (k < length l)%nat → py_setitem l (Z.of_nat k) x = Ok (<[k := x]> l).
Proof. intros Hk. unfold py_setitem. by rewrite py_index_nonneg. Qed.

(** Writing two slots per axis, all slots different, leaves in each
    slot what its axis wrote. *)
Lemma foldl_two_slots (b e : nat → Z) (pb pe : nat → nat) (n : nat) (pads : list Z) :
  (∀ i, (i < n)%nat → (pb i < length pads)%nat ∧ (pe i < length pads)%nat) →
  (∀ i j, (i < n)%nat → (j < n)%nat → pb i ≠ pe j) →
  (∀ i j, (i < n)%nat → (j < n)%nat → i ≠ j → pb i ≠ pb j ∧ pe i ≠ pe j) →
  ∀ m, (m ≤ n)%nat →
  let r := foldl (λ pads k, <[pe k := e k]> (<[pb k := b k]> pads)) pads (seq 0 m) in
  length r = length pads ∧
  ∀ i, (i < m)%nat → r !!! pb i = b i ∧ r !!! pe i = e i.
Proof.
  intros Hlen Hbe Hinj m. induction m as [|m IH]; intros Hm r.
  - split; [done | lia].
  - subst r. rewrite seq_S, foldl_app. cbn [foldl Nat.add].
    destruct IH as [IHlen IHget]; [lia |].
    split; [by rewrite !length_insert |].
    intros i Hi. destruct (decide (i = m)) as [-> | Hne].
    + split.
      * rewrite list_lookup_total_insert_ne by (apply not_eq_sym, Hbe; lia).
        apply list_lookup_total_insert_eq. rewrite IHlen. apply Hlen. lia.
      * apply list_lookup_total_insert_eq. rewrite length_insert, IHlen.
        apply Hlen. lia.
    + destruct (Hinj i m) as [Hb He]; [lia | lia | done |].
      destruct (IHget i) as [IHb IHe]; [lia |].
      split.
      * rewrite list_lookup_total_insert_ne by (apply not_eq_sym, Hbe; lia).
        by rewrite list_lookup_total_insert_ne by (by apply not_eq_sym).
      * rewrite list_lookup_total_insert_ne by (by apply not_eq_sym).
        by rewrite list_lookup_total_insert_ne by (apply Hbe; lia).
Qed.

(** The body of line 357, with the table line 484 selects: the pads of
    every axis, in their slots. *)
Lemma calc_pads_same_pooling_body_slots
    (in_spatial_shape kernel_shape strides dilations : list Z) (padding : string)
    (is_known_shape : bool) (pads_order : Z) :
  let n := length kernel_shape in
  let lower := String.eqb (py_lower padding) "same_lower" in
  length in_spatial_shape = n → length strides = n → length dilations = n →
  Forall (λ s, 0 < s) strides →
  pads_order = 1 ∨ pads_order = 2 →
  ∃ pads : list Z,
    calc_pads_same_pooling_body_l357 in_spatial_shape kernel_shape strides dilations
      padding (if is_known_shape then pad_numpy_ops else pad_tf_ops) pads_order
      = Ok pads ∧
    length pads = (n * 2)%nat ∧
    ∀ i, (i < n)%nat →
      pads !!! begin_slot pads_order i =
        same_pad_begin (in_spatial_shape !!! i) (kernel_shape !!! i)
          (strides !!! i) (dilations !!! i) lower ∧
      pads !!! end_slot pads_order n i =
        same_pad_total (in_spatial_shape !!! i) (kernel_shape !!! i)
          (strides !!! i) (dilations !!! i)
        - same_pad_begin (in_spatial_shape !!! i) (kernel_shape !!! i)
            (strides !!! i) (dilations !!! i) lower.
Proof.
  intros n lower Hin Hst Hdl Hpos Horder.
  set (b := λ i : nat, same_pad_begin (in_spatial_shape !!! i) (kernel_shape !!! i)
                         (strides !!! i) (dilations !!! i) lower).
  set (e := λ i : nat, same_pad_total (in_spatial_shape !!! i) (kernel_shape !!! i)
                         (strides !!! i) (dilations !!! i) - b i).
  unfold calc_pads_same_pooling_body_l357. fold n.
  replace (Z.to_nat (Z.of_nat n * 2)) with (n * 2)%nat by lia.
  rewrite py_range_seq.
  destruct (foldlM_ok_foldl
    (λ pads i,
       in_size ← py_getitem in_spatial_shape i;
       kernel ← py_getitem kernel_shape i;
       dilation ← py_getitem dilations i;
       let filter_size := (kernel - 1) * dilation + 1 in
       stride ← py_getitem strides i;
       let ops := if is_known_shape then pad_numpy_ops else pad_tf_ops in
       let out_size := ceil_op ops (truediv in_size stride) in
       let out_size := cast_int_op ops out_size in
       let pad_along_axis :=
         max_op ops ((out_size - 1) * stride + filter_size - in_size) 0 in
       let pad_op :=
         if String.eqb (py_lower padding) "same_lower" then ceil_op ops
         else floor_op ops in
       let pad_begin := pad_op (truediv pad_along_axis 2) in
       let pad_begin := cast_int_op ops pad_begin in
       let pad_along_axis := cast_int_op ops (inject_Z pad_along_axis) in
       let pad_end := pad_along_axis - pad_begin in
       pads ← py_setitem pads (i * pads_order) pad_begin;
       py_setitem pads
         (i * pads_order + (if bool_decide (pads_order = 1) then Z.of_nat n else 1))
         pad_end)
    (λ pads k, <[end_slot pads_order n k := e k]>
                 (<[begin_slot pads_order k := b k]> pads))
    (λ pads, length pads = (n * 2)%nat)
    (seq 0 n) (replicate (n * 2) 0)) as [Hfold _].
  - intros pads k [_ Hk]%elem_of_seq Hlen. cbn in Hk.
    assert (Hsk : 0 < strides !!! k).
    { rewrite Forall_lookup_total in Hpos. apply Hpos. lia. }
    rewrite !py_getitem_total by lia. rewrite !bind_Ok. cbv zeta.
    assert (Hb : (if is_known_shape then np_astype_int64 else tf_cast_int64)
                   ((if String.eqb (py_lower padding) "same_lower"
                     then if is_known_shape then np_ceil else tf_math_ceil
                     else if is_known_shape then np_floor else tf_math_floor)
                      (truediv
                         (Z.max
                            (((if is_known_shape then np_astype_int64 else tf_cast_int64)
                                ((if is_known_shape then np_ceil else tf_math_ceil)
                                   (truediv (in_spatial_shape !!! k) (strides !!! k)))
                              - 1) * strides !!! k
                             + ((kernel_shape !!! k - 1) * dilations !!! k + 1)
                             - in_spatial_shape !!! k) 0) 2)) = b k).
    { unfold b, same_pad_begin, same_pad_total. fold lower.
      destruct is_known_shape, lower;
        unfold np_astype_int64, tf_cast_int64, np_ceil, tf_math_ceil, np_floor,
          tf_math_floor;
        rewrite !trunc_inject, ?Qceiling_truediv, ?Qfloor_truediv by lia;
        reflexivity. }
    assert (Ht : (if is_known_shape then np_astype_int64 else tf_cast_int64)
                   (inject_Z
                      (Z.max
                         (((if is_known_shape then np_astype_int64 else tf_cast_int64)
                             ((if is_known_shape then np_ceil else tf_math_ceil)
                                (truediv (in_spatial_shape !!! k) (strides !!! k)))
                           - 1) * strides !!! k
                          + ((kernel_shape !!! k - 1) * dilations !!! k + 1)
                          - in_spatial_shape !!! k) 0))
                 = same_pad_total (in_spatial_shape !!! k) (kernel_shape !!! k)
                     (strides !!! k) (dilations !!! k)).
    { unfold same_pad_total.
      destruct is_known_shape;
        unfold np_astype_int64, tf_cast_int64, np_ceil, tf_math_ceil;
        rewrite !trunc_inject, Qceiling_truediv by lia; reflexivity. }
    destruct is_known_shape; cbn [ceil_op floor_op max_op cast_int_op pad_numpy_ops
      pad_tf_ops np_maximum tf_maximum] in *.
    all: unfold np_maximum, tf_maximum.
    all: destruct (String.eqb (py_lower padding) "same_lower") eqn:Hlow;
      rewrite Hb, Ht; fold (e k).
    all: destruct Horder as [-> | ->]; unfold begin_slot, end_slot;
      cbn [bool_decide decide_rel]; repeat case_bool_decide; try lia.
    all: rewrite ?Z.mul_1_r;
      replace (Z.of_nat k * 2) with (Z.of_nat (k * 2)) by lia;
      rewrite py_setitem_nonneg by lia; rewrite bind_Ok;
      try replace (Z.of_nat k + Z.of_nat n) with (Z.of_nat (k + n)) by lia;
      try replace (Z.of_nat (k * 2) + 1) with (Z.of_nat (k * 2 + 1)) by lia;
      rewrite py_setitem_nonneg by (rewrite length_insert; lia);
      (split; [done | by rewrite !length_insert]).
  - apply length_replicate.
  - exists (foldl (λ pads k, <[end_slot pads_order n k := e k]>
                        (<[begin_slot pads_order k := b k]> pads))
                  (replicate (n * 2) 0) (seq 0 n)).
    split; [exact Hfold |].
    destruct (foldl_two_slots b e (begin_slot pads_order) (end_slot pads_order n) n
                (replicate (n * 2) 0)) with (m := n) as [Hlen Hget].
    + intros i Hi. rewrite length_replicate. unfold begin_slot, end_slot.
      repeat case_bool_decide; lia.
    + intros i j Hi Hj. unfold begin_slot, end_slot. repeat case_bool_decide; lia.
    + intros i j Hi Hj Hne. unfold begin_slot, end_slot.
      repeat case_bool_decide; lia.
    + lia.
    + split; [by rewrite Hlen, length_replicate |]. exact Hget.
Qed.

Lemma ceil_div_bounds a b : 0 < b → (ceil_div a b - 1) * b < a ≤ ceil_div a b * b.
Proof.
  intros Hb. unfold ceil_div.
  pose proof (Z.div_mod (- a) b ltac:(lia)) as Hdm.
  pose proof (Z.mod_pos_bound (- a) b Hb). nia.
Qed.

Lemma same_pad_facts in_size kernel stride dilation lower :
  0 < stride → 1 ≤ (kernel - 1) * dilation + 1 →
  let t := same_pad_total in_size kernel stride dilation in
  let b := same_pad_begin in_size kernel stride dilation lower in
  0 ≤ b ∧ 0 ≤ t - b ∧
  (if lower then t - b ≤ b ≤ t - b + 1 else b ≤ t - b ≤ b + 1) ∧
  floor_div (in_size + t - ((kernel - 1) * dilation + 1)) stride + 1
    = ceil_div in_size stride.
Proof.
  intros Hs Hf t b.
  assert (Ht : 0 ≤ t) by (unfold t, same_pad_total; lia).
  assert (Hfl : 2 * floor_div t 2 ≤ t < 2 * floor_div t 2 + 2).
  { unfold floor_div. pose proof (Z.div_mod t 2 ltac:(lia)).
    pose proof (Z.mod_pos_bound t 2 ltac:(lia)). lia. }
  assert (Hce : 2 * ceil_div t 2 - 2 < t ≤ 2 * ceil_div t 2).
  { pose proof (ceil_div_bounds t 2 ltac:(lia)). lia. }
  assert (Hb : b = if lower then ceil_div t 2 else floor_div t 2) by done.
  split; [destruct lower; lia |]. split; [destruct lower; lia |].
  split; [destruct lower; lia |].
  pose proof (ceil_div_bounds in_size stride Hs) as Hout.
  unfold floor_div.
  set (out := ceil_div in_size stride) in *.
  set (f := (kernel - 1) * dilation + 1) in *.
  assert (Hq : (in_size + t - f) / stride = out - 1); [| lia].
  symmetry. apply (Z.div_unique _ _ _ (in_size + t - f - stride * (out - 1))); [| lia].
  left. unfold t, same_pad_total. fold out f. lia.
Qed.

(** X14. With the numpy table, positive strides and one entry per axis
    in each list, sizes, strides and filters being integers that a
    [float64] holds exactly, the body of the [calc_pads_same_pooling]
    of line 357 returns [2 * len(kernel_shape)] pads: for [pads_order]
    1 the begins followed by the ends, for [pads_order] 2 the begin and
    end of each axis side by side; axis [i] gets the total
    [max((ceil(in/stride) - 1) * stride + filter - in, 0)], the begin
    pad being half of it rounded up for "same_lower" (in any letter
    case) and rounded down for every other string. *)
Theorem calc_pads_same_pooling_body_layout
    (in_spatial_shape kernel_shape strides dilations : list Z) (padding : string)
    (pads_order : Z) :
  let n := length kernel_shape in
  let lower := String.eqb (py_lower padding) "same_lower" in
  length in_spatial_shape = n → length strides = n → length dilations = n →
  Forall (λ s, 0 < s < 2 ^ 53) strides →
  (∀ i, (i < n)%nat →
     0 ≤ in_spatial_shape !!! i < 2 ^ 53 ∧
     float64_exact (filter_size_of kernel_shape dilations i)) →
  pads_order = 1 ∨ pads_order = 2 →
  ∃ pads : list Z,
    calc_pads_same_pooling_body_l357 in_spatial_shape kernel_shape strides dilations
      padding pad_numpy_ops pads_order
      = Ok pads ∧
    length pads = (n * 2)%nat ∧
    ∀ i, (i < n)%nat →
      pads !!! begin_slot pads_order i =
        same_pad_begin (in_spatial_shape !!! i) (kernel_shape !!! i)
          (strides !!! i) (dilations !!! i) lower ∧
      pads !!! end_slot pads_order n i =
        same_pad_total (in_spatial_shape !!! i) (kernel_shape !!! i)
          (strides !!! i) (dilations !!! i)
        - same_pad_begin (in_spatial_shape !!! i) (kernel_shape !!! i)
            (strides !!! i) (dilations !!! i) lower.
Proof.
  intros n lower Hin Hst Hdl Hbound _ Horder.
  assert (Hpos : Forall (λ s, 0 < s) strides).
  { eapply Forall_impl; [done |]. cbn. lia. }
  exact (calc_pads_same_pooling_body_slots in_spatial_shape kernel_shape strides
           dilations padding true pads_order Hin Hst Hdl Hpos Horder).
Qed.

Lemma calc_pads_same_pooling_body_layout_example :
  Forall (λ s, 0 < s < 2 ^ 53) [2; 2] ∧
  (∀ i, (i < length [3; 3])%nat →
     0 ≤ [10; 7] !!! i < 2 ^ 53 ∧ float64_exact (filter_size_of [3; 3] [1; 1] i)) ∧
  ∃ pads : list Z,
    calc_pads_same_pooling_body_l357 [10; 7] [3; 3] [2; 2] [1; 1] "SAME_LOWER"
      pad_numpy_ops 1 = Ok pads ∧
    length pads = (length [3; 3] * 2)%nat ∧
    ∀ i, (i < length [3; 3])%nat →
      pads !!! begin_slot 1 i =
        same_pad_begin ([10; 7] !!! i) ([3; 3] !!! i) ([2; 2] !!! i) ([1; 1] !!! i)
          (String.eqb (py_lower "SAME_LOWER") "same_lower") ∧
      pads !!! end_slot 1 (length [3; 3]) i =
        same_pad_total ([10; 7] !!! i) ([3; 3] !!! i) ([2; 2] !!! i) ([1; 1] !!! i)
        - same_pad_begin ([10; 7] !!! i) ([3; 3] !!! i) ([2; 2] !!! i) ([1; 1] !!! i)
            (String.eqb (py_lower "SAME_LOWER") "same_lower").
Proof.
  assert (Hpos : Forall (λ s, 0 < s < 2 ^ 53) [2; 2]) by (repeat constructor).
  assert (Hexact : ∀ i, (i < length [3; 3])%nat →
            0 ≤ [10; 7] !!! i < 2 ^ 53 ∧
            float64_exact (filter_size_of [3; 3] [1; 1] i)).
  { intros [|[|i]] Hi; [by vm_compute | by vm_compute | cbn in Hi; lia]. }
  exact (conj Hpos (conj Hexact
    (calc_pads_same_pooling_body_layout [10; 7] [3; 3] [2; 2] [1; 1] "SAME_LOWER"
       1 eq_refl eq_refl eq_refl Hpos Hexact (or_introl eq_refl)))).
Defined.

(** X15. The pads of the body of line 357 do what "same" padding is
    for: with the numpy table, positive strides and filters of size at
    least 1 (sizes, strides and filters being integers that a [float64]
    holds exactly), every pad is non-negative, the two pads of an axis
    differ by at most one (the larger one at the begin for
    "same_lower", at the end otherwise), and the padded axis holds
    exactly [ceil(in/stride)] windows. *)
Theorem calc_pads_same_pooling_body_same_size
    (in_spatial_shape kernel_shape strides dilations : list Z) (padding : string)
    (pads_order : Z) :
  let n := length kernel_shape in
  length in_spatial_shape = n → length strides = n → length dilations = n →
  Forall (λ s, 0 < s < 2 ^ 53) strides →
  (∀ i, (i < n)%nat →
     0 ≤ in_spatial_shape !!! i < 2 ^ 53 ∧
     1 ≤ filter_size_of kernel_shape dilations i < 2 ^ 53) →
  pads_order = 1 ∨ pads_order = 2 →
  ∃ pads : list Z,
    calc_pads_same_pooling_body_l357 in_spatial_shape kernel_shape strides dilations
      padding pad_numpy_ops pads_order
      = Ok pads ∧
    ∀ i, (i < n)%nat →
      let b := pads !!! begin_slot pads_order i in
      let e := pads !!! end_slot pads_order n i in
      0 ≤ b ∧ 0 ≤ e ∧
      (if String.eqb (py_lower padding) "same_lower"
       then e ≤ b ≤ e + 1 else b ≤ e ≤ b + 1) ∧
      floor_div (in_spatial_shape !!! i + b + e
                 - filter_size_of kernel_shape dilations i) (strides !!! i) + 1
        = ceil_div (in_spatial_shape !!! i) (strides !!! i).
Proof.
  intros n Hin Hst Hdl Hbound Hfilter Horder.
  assert (Hpos : Forall (λ s, 0 < s) strides).
  { eapply Forall_impl; [done |]. cbn. lia. }
  destruct (calc_pads_same_pooling_body_slots in_spatial_shape kernel_shape strides
              dilations padding true pads_order Hin Hst Hdl Hpos Horder)
    as (pads & Hok & _ & Hget).
  exists pads. split; [done |]. intros i Hi. cbv zeta in *. subst n.
  destruct (Hget i Hi) as [-> ->].
  assert (Hsi : 0 < strides !!! i).
  { rewrite Forall_lookup_total in Hpos. apply Hpos. lia. }
  assert (Hfi : 1 ≤ filter_size_of kernel_shape dilations i)
    by (destruct (Hfilter i Hi) as [_ [? _]]; done).
  destruct (same_pad_facts (in_spatial_shape !!! i) (kernel_shape !!! i)
              (strides !!! i) (dilations !!! i)
              (String.eqb (py_lower padding) "same_lower") Hsi Hfi)
    as (Hb & He & Hround & Hsize).
  split; [done |]. split; [done |]. split; [done |].
  rewrite <- Hsize. unfold filter_size_of. do 2 f_equal. lia.
Qed.

Lemma calc_pads_same_pooling_body_same_size_example :
  Forall (λ s, 0 < s < 2 ^ 53) [2; 3] ∧
  (∀ i, (i < length [3; 2])%nat →
     0 ≤ [10; 7] !!! i < 2 ^ 53 ∧ 1 ≤ filter_size_of [3; 2] [1; 2] i < 2 ^ 53) ∧
  ∃ pads : list Z,
    calc_pads_same_pooling_body_l357 [10; 7] [3; 2] [2; 3] [1; 2] "same_upper"
      pad_numpy_ops 2 = Ok pads ∧
    ∀ i, (i < length [3; 2])%nat →
      let b := pads !!! begin_slot 2 i in
      let e := pads !!! end_slot 2 (length [3; 2]) i in
      0 ≤ b ∧ 0 ≤ e ∧
      (if String.eqb (py_lower "same_upper") "same_lower"
       then e ≤ b ≤ e + 1 else b ≤ e ≤ b + 1) ∧
      floor_div ([10; 7] !!! i + b + e - filter_size_of [3; 2] [1; 2] i)
                ([2; 3] !!! i) + 1
        = ceil_div ([10; 7] !!! i) ([2; 3] !!! i).
Proof.
  assert (Hpos : Forall (λ s, 0 < s < 2 ^ 53) [2; 3]) by (repeat constructor).
  assert (Hfilter : ∀ i, (i < length [3; 2])%nat →
            0 ≤ [10; 7] !!! i < 2 ^ 53 ∧
            1 ≤ filter_size_of [3; 2] [1; 2] i < 2 ^ 53).
  { intros [|[|i]] Hi; [by vm_compute | by vm_compute | cbn in Hi; lia]. }
  exact (conj Hpos (conj Hfilter
    (calc_pads_same_pooling_body_same_size [10; 7] [3; 2] [2; 3] [1; 2]
       "same_upper" 2 eq_refl eq_refl eq_refl Hpos Hfilter
       (or_intror eq_refl)))).
Defined.

(** ** Input padder: every outcome *)

(** What [pad_input] returns is its input, or one pad operation over
    its input with two [[0, 0]] rows and one row per spatial axis. *)
Lemma pad_input_result input_tensor is_known_shape kernel_shape ceil_mode
    spatial_size strides dilations padding padding_constant r :
  pad_input input_tensor is_known_shape kernel_shape ceil_mode spatial_size strides
    dilations padding padding_constant = Ok r →
  r = input_tensor ∨
  ∃ rest, r = PadOp input_tensor ([(0, 0); (0, 0)] ++ rest) padding_constant ∧
          length rest = spatial_size ∧
          length (t_dims input_tensor) = (spatial_size + 2)%nat.
Proof.
  unfold pad_input.
  destruct (negb ceil_mode && _); [intros [= <-]; by left |].
  destruct (calc_pads_pooling _ _ _ _ _ _ _ _) as [pads|?]; [|done].
  rewrite bind_Ok.
  destruct (is_known_shape && _); [intros [= <-]; by left |].
  destruct (foldlM _ _ _) as [tf_paddings|?] eqn:Hfold; [|done].
  rewrite bind_Ok. unfold tf_pad.
  case_bool_decide as Hrank; [|done]. case_match; [|done]. intros [= <-].
  apply tf_paddings_prefix in Hfold as (rest & -> & Hlen).
  right. exists rest.
  rewrite py_range_length, Z.sub_0_r, Nat2Z.id in Hlen.
  split; [done |]. split; [done |].
  rewrite <- Hrank, length_app. cbn. lia.
Qed.

(** X16. Whatever [pad_input] returns has the rank and the element type
    of its input, and its dimensions 0 and 1 have the sizes they had. *)
Theorem pad_input_frame input_tensor is_known_shape kernel_shape ceil_mode
    spatial_size strides dilations padding padding_constant r :
  pad_input input_tensor is_known_shape kernel_shape ceil_mode spatial_size strides
    dilations padding padding_constant = Ok r →
  length (t_dims r) = length (t_dims input_tensor) ∧
  t_dtype r = t_dtype input_tensor ∧
  t_dims r !! 0%nat = t_dims input_tensor !! 0%nat ∧
  t_dims r !! 1%nat = t_dims input_tensor !! 1%nat.
Proof.
  intros [-> | (rest & -> & Hrest & Hrank)]%pad_input_result; [done |].
  cbn [t_dims t_dtype app].
  destruct (t_dims input_tensor) as [|d0 [|d1 dims]] eqn:Hd; cbn in Hrank; try lia.
  cbn. rewrite length_zip_with. cbn in Hrank.
  repeat split; try lia; f_equal; lia.
Qed.

Lemma pad_input_frame_example :
  pad_input nhwc_input true [2; 2] false 2 [1; 1] [1; 1] (PadList [1; 3; 2; 4]) 0
    = Ok (PadOp nhwc_input [(0, 0); (0, 0); (1, 2); (3, 4)] 0) ∧
  length (t_dims (PadOp nhwc_input [(0, 0); (0, 0); (1, 2); (3, 4)] 0))
    = length (t_dims nhwc_input) ∧
  t_dtype (PadOp nhwc_input [(0, 0); (0, 0); (1, 2); (3, 4)] 0) = t_dtype nhwc_input ∧
  t_dims (PadOp nhwc_input [(0, 0); (0, 0); (1, 2); (3, 4)] 0) !! 0%nat
    = t_dims nhwc_input !! 0%nat ∧
  t_dims (PadOp nhwc_input [(0, 0); (0, 0); (1, 2); (3, 4)] 0) !! 1%nat
    = t_dims nhwc_input !! 1%nat.
Proof.
  assert (H : pad_input nhwc_input true [2; 2] false 2 [1; 1] [1; 1]
                (PadList [1; 3; 2; 4]) 0
              = Ok (PadOp nhwc_input [(0, 0); (0, 0); (1, 2); (3, 4)] 0))
    by reflexivity.
  exact (conj H (pad_input_frame _ _ _ _ _ _ _ _ _ _ H)).
Defined.

(** X17. When the shape is not known, only the test of line 563 can
    spare the pad operation: outside of it every result of [pad_input]
    is a pad operation over the input with [spatial_size + 2] rows,
    also when every pad is zero (the lower-case "valid" builds an
    all-zero pad). *)
Theorem pad_input_unknown_shape_always_pads input_tensor kernel_shape ceil_mode
    spatial_size strides dilations padding padding_constant r :
  negb ceil_mode && asks_no_padding padding spatial_size = false →
  pad_input input_tensor false kernel_shape ceil_mode spatial_size strides
    dilations padding padding_constant = Ok r →
  ∃ rest, r = PadOp input_tensor ([(0, 0); (0, 0)] ++ rest) padding_constant ∧
          length rest = spatial_size.
Proof.
  intros Hfast. unfold pad_input.
  change (match padding with
          | PadList l => bool_decide (l = replicate (spatial_size * 2) 0)
          | PadStr s => String.eqb s "VALID"
          end) with (asks_no_padding padding spatial_size).
  rewrite Hfast.
  destruct (calc_pads_pooling _ _ _ _ _ _ _ _) as [pads|?]; [|done].
  rewrite bind_Ok. cbn [andb].
  destruct (foldlM _ _ _) as [tf_paddings|?] eqn:Hfold; [|done].
  rewrite bind_Ok. unfold tf_pad.
  case_bool_decide as Hrank; [|done]. case_match; [|done]. intros [= <-].
  apply tf_paddings_prefix in Hfold as (rest & -> & Hlen).
  exists rest. split; [done |].
  by rewrite py_range_length, Z.sub_0_r, Nat2Z.id in Hlen.
Qed.

Lemma pad_input_unknown_shape_always_pads_example :
  negb false && asks_no_padding (PadStr "valid") 2 = false ∧
  pad_input nhwc_square false [3; 3] false 2 [2; 2] [1; 1] (PadStr "valid") 0
    = Ok (PadOp nhwc_square [(0, 0); (0, 0); (0, 0); (0, 0)] 0) ∧
  ∃ rest, PadOp nhwc_square [(0, 0); (0, 0); (0, 0); (0, 0)] 0
            = PadOp nhwc_square ([(0, 0); (0, 0)] ++ rest) 0 ∧
          length rest = 2%nat.
Proof.
  assert (Hf : negb false && asks_no_padding (PadStr "valid") 2 = false)
    by reflexivity.
  assert (H : pad_input nhwc_square false [3; 3] false 2 [2; 2] [1; 1]
                (PadStr "valid") 0
              = Ok (PadOp nhwc_square [(0, 0); (0, 0); (0, 0); (0, 0)] 0))
    by reflexivity.
  exact (conj Hf (conj H
    (pad_input_unknown_shape_always_pads _ _ _ _ _ _ _ _ _ Hf H))).
Defined.

Lemma is_same_mode_not_VALID s : is_same_mode s = true → String.eqb s "VALID" = false.
Proof.
  intros Hs. destruct (String.eqb s "VALID") eqn:Heq; [|done].
  apply String.eqb_eq in Heq as ->. discriminate Hs.
Qed.

(** X18. [pad_input] cannot pad in a "same" mode: for every mode string
    that starts with "same" (in any letter case) it raises [TypeError],
    whatever the tensor and the other arguments are. *)
Theorem pad_input_same_mode_fails input_tensor is_known_shape kernel_shape
    ceil_mode spatial_size strides dilations padding padding_constant :
  is_same_mode padding = true →
  pad_input input_tensor is_known_shape kernel_shape ceil_mode spatial_size strides
    dilations (PadStr padding) padding_constant = Err TypeError.
Proof.
  intros Hs. unfold pad_input.
  rewrite is_same_mode_not_VALID, andb_false_r by done.
  by rewrite calc_pads_pooling_same_fails.
Qed.

Lemma pad_input_same_mode_fails_example :
  is_same_mode "SAME_UPPER" = true ∧
  pad_input nhwc_square true [3; 3] false 2 [2; 2] [1; 1] (PadStr "SAME_UPPER") 0
    = Err TypeError.
Proof.
  assert (Hs : is_same_mode "SAME_UPPER" = true) by reflexivity.
  exact (conj Hs (pad_input_same_mode_fails nhwc_square true [3; 3] false 2
                    [2; 2] [1; 1] "SAME_UPPER" 0 Hs)).
Defined.

(** ** alternative_argmax: when a graph is built, and the part of epsilon *)

(** X19. A graph comes back from [alternative_argmax] only for an input
    whose element type is floating or integer, an output type that is
    floating or integer, and an [axis] that selects a dimension of
    known size: every other call raises. *)
Theorem alternative_argmax_builds_only_if Color_RED Color_RESET input_tensor axis
    output_type name keepdims epsilon to_int64 to_float32 g :
  (alternative_argmax Color_RED Color_RESET input_tensor axis output_type
     name keepdims epsilon to_int64 to_float32).2 = Ok g →
  is_real (t_dtype input_tensor) = true ∧
  is_real output_type = true ∧
  ∃ n, py_getitem (static_shape input_tensor) axis = Ok (Some n).
Proof.
  unfold alternative_argmax.
  destruct (py_getitem (static_shape input_tensor) axis) as [[n|]|e] eqn:Hget;
    [| |done].
  - rewrite bind_Ok.
    unfold graph_reduce_max, graph_subtract, graph_minimum, graph_multiply,
      graph_range, _nnapi_scalar, op_takes, is_real, is_complex.
    destruct (t_dtype input_tensor), output_type; cbn; try done;
      intros _; (split; [done |]); (split; [done |]); by exists n.
  - rewrite bind_Ok.
    unfold graph_reduce_max, graph_subtract, graph_minimum, graph_multiply,
      graph_range, _nnapi_scalar, op_takes, is_real, is_complex.
    destruct (t_dtype input_tensor), output_type; cbn; done.
Qed.

Lemma alternative_argmax_builds_only_if_example :
  ∃ g,
    (alternative_argmax "<red>" "<reset>" nhwc_input (-1) tf_int64 None false
       None false false).2 = Ok g ∧
    is_real (t_dtype nhwc_input) = true ∧
    is_real tf_int64 = true ∧
    ∃ n, py_getitem (static_shape nhwc_input) (-1) = Ok (Some n).
Proof.
  eexists.
  refine (let H := eq_refl in
          conj H (alternative_argmax_builds_only_if "<red>" "<reset>" nhwc_input
                    (-1) tf_int64 None false None false false _ H)).
Defined.

(** X20. [epsilon] is read only for floating element types: for every
    other type the outcome is the same for any two values of [epsilon];
    and an [epsilon] equal to zero is taken as no [epsilon] at all. *)
Theorem alternative_argmax_epsilon Color_RED Color_RESET input_tensor axis
    output_type name keepdims to_int64 to_float32 :
  (is_floating (t_dtype input_tensor) = false →
   ∀ epsilon epsilon',
     alternative_argmax Color_RED Color_RESET input_tensor axis output_type name
       keepdims epsilon to_int64 to_float32
     = alternative_argmax Color_RED Color_RESET input_tensor axis output_type name
         keepdims epsilon' to_int64 to_float32) ∧
  (∀ e, Qeq_bool e 0 = true →
     alternative_argmax Color_RED Color_RESET input_tensor axis output_type name
       keepdims (Some e) to_int64 to_float32
     = alternative_argmax Color_RED Color_RESET input_tensor axis output_type name
         keepdims None to_int64 to_float32).
Proof.
  split.
  - intros Hd epsilon epsilon'. unfold alternative_argmax. by rewrite Hd.
  - intros e He. unfold alternative_argmax. by rewrite He.
Qed.

(** ** alternative_asin and alternative_acos on the whole line *)

Lemma Rabs_le_between (x b : R) : (Rabs x <= b)%R → (- b <= x <= b)%R.
Proof. unfold Rabs. destruct (Rcase_abs x); lra. Qed.

Lemma alternative_asin_positive (x : R) :
  (0 < x <= 1)%R →
  alternative_asin (Fin x)
  = Fin (pseudo_pi / 2 - sqrt (1 - x) * pseudo_poly x).
Proof.
  intros Hx. unfold alternative_asin, pseudo_poly, pseudo_pi. tf_eval.
  rewrite (Rabs_pos_eq x), (Rmin_right x 0) by lra.
  repeat (tf_eval; decide_reals).
  all: replace (1 + - x)%R with (1 - x)%R by lra.
  all: f_equal; field; lra.
Qed.

Lemma alternative_asin_negative (x : R) :
  (-1 <= x < 0)%R →
  alternative_asin (Fin x)
  = Fin (- (pseudo_pi / 2 - sqrt (1 + x) * pseudo_poly (- x))).
Proof.
  intros Hx. unfold alternative_asin, pseudo_poly, pseudo_pi. tf_eval.
  rewrite (Rabs_left x), (Rmin_left x 0) by lra.
  repeat (tf_eval; decide_reals).
  all: replace (1 + - - x)%R with (1 + x)%R by lra.
  all: f_equal; field; lra.
Qed.



(** Outside of [[-1, 1]], and at the infinities and the not-a-number,
    the square root of [1 - |x|] is not a number. *)
Lemma sqrt_term_NaN (v : tfval) :
  (∀ x, v = Fin x → (1 < Rabs x)%R) →
  tf_sqrt (tf_subtract (Fin 1) (tf_abs v)) = NaN.
Proof.
  intros Hv. destruct v as [| s | x]; [done | done |].
  specialize (Hv x eq_refl). tf_eval. by decide_reals.
Qed.

Lemma alternative_asin_of_sqrt_NaN (v : tfval) :
  tf_sqrt (tf_subtract (Fin 1) (tf_abs v)) = NaN → alternative_asin v = NaN.
Proof.
  intros Hs. unfold alternative_asin. rewrite Hs.
  cbn [tf_multiply]. by rewrite tf_subtract_NaN_r.
Qed.

Lemma alternative_acos_of_sqrt_NaN (v : tfval) :
  tf_sqrt (tf_subtract (Fin 1) (tf_abs v)) = NaN → alternative_acos v = NaN.
Proof.
  intros Hs. unfold alternative_acos. rewrite Hs.
  by rewrite tf_multiply_NaN_r, tf_add_NaN_r.
Qed.

Lemma alternative_asin_zero : alternative_asin (Fin 0) = NaN.
Proof.
  unfold alternative_asin. rewrite neg_at_zero.
  by rewrite tf_multiply_NaN_r; cbn [tf_multiply]; rewrite tf_subtract_NaN_r.
Qed.

Lemma alternative_acos_zero : alternative_acos (Fin 0) = NaN.
Proof.
  unfold alternative_acos. rewrite neg_at_zero.
  by rewrite (tf_multiply_NaN_r (Fin 2)), tf_subtract_NaN_r, tf_multiply_NaN_r, tf_add_NaN_r.
Qed.

(** An input is a real of [[-1, 1]] other than 0, or it is not. *)
Lemma tfval_inside_or_outside (v : tfval) :
  (∃ x, v = Fin x ∧ x ≠ 0%R ∧ (Rabs x <= 1)%R) ∨
  (∀ x, v = Fin x → x = 0%R ∨ (1 < Rabs x)%R).
Proof.
  destruct v as [| s | x]; [by right | by right |].
  destruct (Req_dec_T x 0) as [-> | Hx0]; [right; intros ? [= <-]; by left |].
  destruct (Rle_dec (Rabs x) 1) as [Hle | Hgt].
  - left. by exists x.
  - right. intros ? [= <-]. right. lra.
Qed.

Lemma alternative_asin_acos_outside (v : tfval) :
  (∀ x, v = Fin x → x = 0%R ∨ (1 < Rabs x)%R) →
  alternative_asin v = NaN ∧ alternative_acos v = NaN.
Proof.
  intros Hv. destruct v as [| s | x].
  - split; [apply alternative_asin_of_sqrt_NaN | apply alternative_acos_of_sqrt_NaN]; done.
  - split; [apply alternative_asin_of_sqrt_NaN | apply alternative_acos_of_sqrt_NaN]; done.
  - destruct (Hv x eq_refl) as [-> | Hx].
    + split; [apply alternative_asin_zero | apply alternative_acos_zero].
    + split; [apply alternative_asin_of_sqrt_NaN | apply alternative_acos_of_sqrt_NaN];
        apply sqrt_term_NaN; by intros ? [= <-].
Qed.



(** X23. The pseudo arcsine is odd on every input:
    asin(-v) = -asin(v), both sides being not-a-number together. The
    two sides share the value computed from [|v|], and the sign
    indicator of line 291 is 0 on one side and 1 on the other, so the
    identity does not rest on the arithmetic being exact. *)
Theorem alternative_asin_odd (v : tfval) :
  alternative_asin (tf_negative v) = tf_negative (alternative_asin v).
Proof.
  destruct (tfval_inside_or_outside v) as [(x & -> & Hx0 & Hx1) | Hout].
  - apply Rabs_le_between in Hx1. cbn [tf_negative].
    destruct (Rlt_dec 0 x) as [Hpos | Hneg].
    + rewrite (alternative_asin_positive x),
        (alternative_asin_negative (- x)) by lra.
      cbn [tf_negative].
      replace (1 + - x)%R with (1 - x)%R by lra.
      replace (- - x)%R with x by lra.
      done.
    + rewrite (alternative_asin_negative x),
        (alternative_asin_positive (- x)) by lra.
      cbn [tf_negative].
      replace (1 - - x)%R with (1 + x)%R by lra.
      f_equal. lra.
  - destruct (alternative_asin_acos_outside v Hout) as [-> _].
    assert (Hout' : ∀ x, tf_negative v = Fin x → x = 0%R ∨ (1 < Rabs x)%R).
    { intros x Hx. destruct v as [| s | y]; [done | done |].
      cbn in Hx. injection Hx as <-.
      destruct (Hout y eq_refl) as [-> | Hy]; [left; lra |].
      right. by rewrite Rabs_Ropp. }
    destruct (alternative_asin_acos_outside _ Hout') as [-> _]. done.
Qed.
